(** * Capture/session streaming protocol of the calibration frontend

    A shallow embedding of
    - [src/store/backgroundSelectionSlice.ts] (module [Slice]),
    - [src/services/websocket.ts]              (module [WS]),
    - [src/components/BackgroundSelectionPage.tsx] (module [Page]),
    followed by the properties of the session protocol. *)

From Stdlib Require Import String List Bool ZArith Lia.
Import ListNotations.
Open Scope string_scope.
Open Scope list_scope.

(* ===================================================================== *)
(** ** The Redux slice: [backgroundSelectionSlice.ts] *)
(* ===================================================================== *)

Module Slice.

(** ['camera' | 'file'] *)
Inductive InputMode : Type := camera | file.

(** ['disconnected' | 'connecting' | 'connected' | 'error'] *)
Inductive ConnectionStatus : Type :=
  Disconnected | Connecting | Connected | ConnError.

(** [currentFrame: { image; frameCount }] *)
Record CurrentFrame : Type := mkCurrentFrame {
  cf_image : string;
  cf_frameCount : Z
}.

(** [savedBackground.metadata], camelCase as held in the state. *)
Record Metadata : Type := mkMetadata {
  md_width : Z;
  md_height : Z;
  md_frameCount : Z
}.

Record SavedBackground : Type := mkSavedBackground {
  sb_image : string;
  sb_sessionId : string;
  sb_savedAt : string;
  sb_metadata : option Metadata
}.

(** [interface BackgroundSelectionState]; [null] is [None]. *)
Record BackgroundSelectionState : Type := mkState {
  inputMode : option InputMode;
  selectedFileName : option string;
  sessionId : option string;
  isSessionActive : bool;
  currentFrame : option CurrentFrame;
  savedBackground : option SavedBackground;
  isProcessing : bool;
  isLoading : bool;
  error : option string;
  success : option string;
  hasStartedProcessing : bool;
  connectionStatus : ConnectionStatus;
  processingStatus : string;
  hasBackground : bool
}.

Definition initialState : BackgroundSelectionState :=
  {| inputMode := None;
     selectedFileName := None;
     sessionId := None;
     isSessionActive := false;
     currentFrame := None;
     savedBackground := None;
     isProcessing := false;
     isLoading := false;
     error := None;
     success := None;
     hasStartedProcessing := false;
     connectionStatus := Disconnected;
     processingStatus := "Not started";
     hasBackground := false |}.

(** *** Field assignments ([state.f = v] of the immer draft) *)

Definition set_inputMode v (s : BackgroundSelectionState) :=
  mkState v (selectedFileName s) (sessionId s) (isSessionActive s)
    (currentFrame s) (savedBackground s) (isProcessing s) (isLoading s)
    (error s) (success s) (hasStartedProcessing s) (connectionStatus s)
    (processingStatus s) (hasBackground s).

Definition set_selectedFileName v (s : BackgroundSelectionState) :=
  mkState (inputMode s) v (sessionId s) (isSessionActive s)
    (currentFrame s) (savedBackground s) (isProcessing s) (isLoading s)
    (error s) (success s) (hasStartedProcessing s) (connectionStatus s)
    (processingStatus s) (hasBackground s).

Definition set_sessionId v (s : BackgroundSelectionState) :=
  mkState (inputMode s) (selectedFileName s) v (isSessionActive s)
    (currentFrame s) (savedBackground s) (isProcessing s) (isLoading s)
    (error s) (success s) (hasStartedProcessing s) (connectionStatus s)
    (processingStatus s) (hasBackground s).

Definition set_isSessionActive v (s : BackgroundSelectionState) :=
  mkState (inputMode s) (selectedFileName s) (sessionId s) v
    (currentFrame s) (savedBackground s) (isProcessing s) (isLoading s)
    (error s) (success s) (hasStartedProcessing s) (connectionStatus s)
    (processingStatus s) (hasBackground s).

Definition set_currentFrame v (s : BackgroundSelectionState) :=
  mkState (inputMode s) (selectedFileName s) (sessionId s) (isSessionActive s)
    v (savedBackground s) (isProcessing s) (isLoading s)
    (error s) (success s) (hasStartedProcessing s) (connectionStatus s)
    (processingStatus s) (hasBackground s).

Definition set_savedBackground v (s : BackgroundSelectionState) :=
  mkState (inputMode s) (selectedFileName s) (sessionId s) (isSessionActive s)
    (currentFrame s) v (isProcessing s) (isLoading s)
    (error s) (success s) (hasStartedProcessing s) (connectionStatus s)
    (processingStatus s) (hasBackground s).

Definition set_isProcessing v (s : BackgroundSelectionState) :=
  mkState (inputMode s) (selectedFileName s) (sessionId s) (isSessionActive s)
    (currentFrame s) (savedBackground s) v (isLoading s)
    (error s) (success s) (hasStartedProcessing s) (connectionStatus s)
    (processingStatus s) (hasBackground s).

Definition set_isLoading v (s : BackgroundSelectionState) :=
  mkState (inputMode s) (selectedFileName s) (sessionId s) (isSessionActive s)
    (currentFrame s) (savedBackground s) (isProcessing s) v
    (error s) (success s) (hasStartedProcessing s) (connectionStatus s)
    (processingStatus s) (hasBackground s).

Definition set_error v (s : BackgroundSelectionState) :=
  mkState (inputMode s) (selectedFileName s) (sessionId s) (isSessionActive s)
    (currentFrame s) (savedBackground s) (isProcessing s) (isLoading s)
    v (success s) (hasStartedProcessing s) (connectionStatus s)
    (processingStatus s) (hasBackground s).

Definition set_success v (s : BackgroundSelectionState) :=
  mkState (inputMode s) (selectedFileName s) (sessionId s) (isSessionActive s)
    (currentFrame s) (savedBackground s) (isProcessing s) (isLoading s)
    (error s) v (hasStartedProcessing s) (connectionStatus s)
    (processingStatus s) (hasBackground s).

Definition set_hasStartedProcessing v (s : BackgroundSelectionState) :=
  mkState (inputMode s) (selectedFileName s) (sessionId s) (isSessionActive s)
    (currentFrame s) (savedBackground s) (isProcessing s) (isLoading s)
    (error s) (success s) v (connectionStatus s)
    (processingStatus s) (hasBackground s).

Definition set_connectionStatus v (s : BackgroundSelectionState) :=
  mkState (inputMode s) (selectedFileName s) (sessionId s) (isSessionActive s)
    (currentFrame s) (savedBackground s) (isProcessing s) (isLoading s)
    (error s) (success s) (hasStartedProcessing s) v
    (processingStatus s) (hasBackground s).

Definition set_processingStatus v (s : BackgroundSelectionState) :=
  mkState (inputMode s) (selectedFileName s) (sessionId s) (isSessionActive s)
    (currentFrame s) (savedBackground s) (isProcessing s) (isLoading s)
    (error s) (success s) (hasStartedProcessing s) (connectionStatus s)
    v (hasBackground s).

Definition set_hasBackground v (s : BackgroundSelectionState) :=
  mkState (inputMode s) (selectedFileName s) (sessionId s) (isSessionActive s)
    (currentFrame s) (savedBackground s) (isProcessing s) (isLoading s)
    (error s) (success s) (hasStartedProcessing s) (connectionStatus s)
    (processingStatus s) v.

(** Statements of a reducer body, read top to bottom: [s |> f |> g]. *)
Notation "s |> f" := (f s) (at level 45, left associativity, only parsing).

(** *** Action payloads (the [PayloadAction<...>] types) *)

Record SessionStartedPayload : Type := mkSessionStarted {
  ss_session_id : string
}.

Record FrameProcessedPayload : Type := mkFrameProcessed {
  processed_frame : string;
  frame_count : Z;
  status : string;
  has_background : bool
}.

(** [metadata] as sent by the backend (snake_case). *)
Record WireMetadata : Type := mkWireMetadata {
  wm_width : Z;
  wm_height : Z;
  wm_frame_count : Z
}.

Record BackgroundSavedPayload : Type := mkBackgroundSaved {
  bs_message : string;
  background_image : string;
  bs_session_id : string;
  bs_metadata : option WireMetadata
}.

Record MessagePayload : Type := mkMessage {
  message : string
}.

(** *** Reducers *)

Definition setInputMode (p : option InputMode) (s : BackgroundSelectionState) :=
  s |> set_inputMode p.

Definition setSelectedFileName (p : option string) (s : BackgroundSelectionState) :=
  s |> set_selectedFileName p.

Definition setLoading (p : bool) (s : BackgroundSelectionState) :=
  s |> set_isLoading p.

Definition clearError (s : BackgroundSelectionState) :=
  s |> set_error None.

Definition clearSuccess (s : BackgroundSelectionState) :=
  s |> set_success None.

Definition setConnectionStatus (p : ConnectionStatus) (s : BackgroundSelectionState) :=
  s |> set_connectionStatus p.

Definition handleConnected (s : BackgroundSelectionState) :=
  s |> set_connectionStatus Connected
    |> set_error None.

Definition handleDisconnected (s : BackgroundSelectionState) :=
  s |> set_connectionStatus Disconnected
    |> set_isSessionActive false
    |> set_isProcessing false.

Definition handleSessionStarted (p : SessionStartedPayload) (s : BackgroundSelectionState) :=
  s |> set_sessionId (Some (ss_session_id p))
    |> set_isSessionActive true
    |> set_hasStartedProcessing true
    |> set_isLoading false
    |> set_error None
    |> set_processingStatus "Session started".

Definition handleFrameProcessed (p : FrameProcessedPayload) (s : BackgroundSelectionState) :=
  s |> set_currentFrame (Some (mkCurrentFrame (processed_frame p) (frame_count p)))
    |> set_isProcessing true
    |> set_processingStatus (status p)
    |> set_hasBackground (has_background p)
    |> set_error None.

(** [action.payload.metadata ? {...camelCase...} : undefined] *)
Definition toCamelCase (m : option WireMetadata) : option Metadata :=
  match m with
  | Some w => Some (mkMetadata (wm_width w) (wm_height w) (wm_frame_count w))
  | None => None
  end.

(** [now] is the value of [new Date().toISOString()] read by the reducer. *)
Definition handleBackgroundSaved (p : BackgroundSavedPayload) (now : string)
    (s : BackgroundSelectionState) :=
  s |> set_success (Some (bs_message p))
    |> set_isLoading false
    |> set_savedBackground
         (Some (mkSavedBackground (background_image p) (bs_session_id p) now
                  (toCamelCase (bs_metadata p)))).

Definition handleBackgroundUpdated (p : MessagePayload) (s : BackgroundSelectionState) :=
  s |> set_success (Some (message p))
    |> set_processingStatus "Background updated".

Definition handleWebSocketError (p : MessagePayload) (s : BackgroundSelectionState) :=
  s |> set_error (Some (message p))
    |> set_isLoading false
    |> set_processingStatus "Error occurred".

Definition startSessionRequest (s : BackgroundSelectionState) :=
  s |> set_isLoading true
    |> set_error None
    |> set_processingStatus "Starting session...".

Definition saveBackgroundRequest (s : BackgroundSelectionState) :=
  s |> set_isLoading true
    |> set_error None
    |> set_processingStatus "Saving background...".

Definition resetSession (s : BackgroundSelectionState) :=
  s |> set_sessionId None
    |> set_isSessionActive false
    |> set_currentFrame None
    |> set_isProcessing false
    |> set_hasStartedProcessing false
    |> set_hasBackground false
    |> set_processingStatus "Not started"
    |> set_error None
    |> set_success None.

Definition clearSavedBackground (s : BackgroundSelectionState) :=
  s |> set_savedBackground None
    |> set_success None.

Definition resetAll (_ : BackgroundSelectionState) := initialState.

(** *** Actions and the slice reducer *)

Inductive Action : Type :=
| A_setInputMode (p : option InputMode)
| A_setSelectedFileName (p : option string)
| A_setLoading (p : bool)
| A_clearError
| A_clearSuccess
| A_setConnectionStatus (p : ConnectionStatus)
| A_handleConnected
| A_handleDisconnected
| A_handleSessionStarted (p : SessionStartedPayload)
| A_handleFrameProcessed (p : FrameProcessedPayload)
| A_handleBackgroundSaved (p : BackgroundSavedPayload) (now : string)
| A_handleBackgroundUpdated (p : MessagePayload)
| A_handleWebSocketError (p : MessagePayload)
| A_startSessionRequest
| A_saveBackgroundRequest
| A_resetSession
| A_clearSavedBackground
| A_resetAll.

Definition reducer (s : BackgroundSelectionState) (a : Action) : BackgroundSelectionState :=
  match a with
  | A_setInputMode p => setInputMode p s
  | A_setSelectedFileName p => setSelectedFileName p s
  | A_setLoading p => setLoading p s
  | A_clearError => clearError s
  | A_clearSuccess => clearSuccess s
  | A_setConnectionStatus p => setConnectionStatus p s
  | A_handleConnected => handleConnected s
  | A_handleDisconnected => handleDisconnected s
  | A_handleSessionStarted p => handleSessionStarted p s
  | A_handleFrameProcessed p => handleFrameProcessed p s
  | A_handleBackgroundSaved p now => handleBackgroundSaved p now s
  | A_handleBackgroundUpdated p => handleBackgroundUpdated p s
  | A_handleWebSocketError p => handleWebSocketError p s
  | A_startSessionRequest => startSessionRequest s
  | A_saveBackgroundRequest => saveBackgroundRequest s
  | A_resetSession => resetSession s
  | A_clearSavedBackground => clearSavedBackground s
  | A_resetAll => resetAll s
  end.

(** A run of the store: actions dispatched in order. *)
Definition dispatchAll (s : BackgroundSelectionState) (l : list Action) :=
  fold_left reducer l s.

(** States the store can be in: reachable from [initialState]. *)
Inductive reachable : BackgroundSelectionState -> Prop :=
| reach_init : reachable initialState
| reach_step s a : reachable s -> reachable (reducer s a).

End Slice.

(* ===================================================================== *)
(** ** The browser platform: wire events, observable calls, exceptions *)
(* ===================================================================== *)

Module Platform.

(** Client -> server events of [interface WebSocketEvents], with their
    payloads.  [end_session]'s [session_id] is [None] for [undefined]. *)
Inductive ClientEvent : Type :=
| start_session (input_mode : Slice.InputMode)
| process_frame (frame : string)
| save_background
| update_background (frame : string)
| end_session (session_id : option string).

(** Server -> client events of [interface WebSocketEvents], with the
    payload fields the handlers read. *)
Inductive ServerEvent : Type :=
| sv_connected (p : Slice.MessagePayload)
| sv_session_started (p : Slice.SessionStartedPayload)
| sv_frame_processed (p : Slice.FrameProcessedPayload)
| sv_background_saved (p : Slice.BackgroundSavedPayload)
| sv_background_updated (p : Slice.MessagePayload)
| sv_error (p : Slice.MessagePayload).

(** The event name under which a payload is emitted. *)
Definition eventName (e : ClientEvent) : string :=
  match e with
  | start_session _ => "start_session"
  | process_frame _ => "process_frame"
  | save_background => "save_background"
  | update_background _ => "update_background"
  | end_session _ => "end_session"
  end.

(** A [MediaStream]: the ids of its tracks. *)
Definition MediaStream : Type := list nat.

(** Calls into the platform, recorded in program order.  [console.log]
    is not recorded; everything else the three files call is. *)
Inductive Effect : Type :=
| SocketCreate                       (* io(BACKEND_URL, ...)            *)
| SocketOn (name : string)           (* socket.on(name, cb)             *)
| SocketOff (name : string)          (* socket.off(name)                *)
| SocketEmit (e : ClientEvent)       (* socket.emit(name, payload)      *)
| SocketDisconnect                   (* socket.disconnect()             *)
| ConsoleError (msg : string)        (* console.error(msg, ...)         *)
| SetInterval (h ms : nat)           (* h = window.setInterval(f, ms)   *)
| ClearInterval (h : nat)
| SetTimeout (h ms : nat)            (* h = window.setTimeout(f, ms)    *)
| ClearTimeout (h : nat)
| GetUserMedia                       (* mediaDevices.getUserMedia(...)  *)
| TrackStop (track : nat)            (* track.stop()                    *)
| CreateObjectURL (url : string)
| RevokeObjectURL (url : string)
| Alert (msg : string)
| Navigate (path : string).

(** A thrown value: an [Error] with its message, or anything else. *)
Inductive Thrown : Type :=
| ThrownError (msg : string)
| ThrownOther.

(** [error instanceof Error ? error.message : 'Unknown error'] *)
Definition errorMessage (t : Thrown) : string :=
  match t with
  | ThrownError m => m
  | ThrownOther => "Unknown error"
  end.

Inductive Outcome (A : Type) : Type :=
| Ok (a : A)
| Throw (t : Thrown).
Arguments Ok {A} a.
Arguments Throw {A} t.

(** What the platform answers during one run of a handler. *)
Record Env : Type := mkEnv {
  timerHandle : nat;              (* handle returned by setTimeout/setInterval *)
  readyState : nat;               (* video.readyState                          *)
  getContext2d : bool;            (* canvas.getContext('2d') is not null       *)
  drawImage : option Thrown;      (* Some t: ctx.drawImage(video, 0, 0) throws *)
  toDataURL : Outcome string;     (* canvas.toDataURL('image/jpeg', 0.8)       *)
  trackStop : option Thrown;      (* Some t: track.stop() throws t             *)
  nowISO : string;                (* new Date().toISOString()                  *)
  measuredFps : option Z          (* Math.round(1000 / timeDiff), timeDiff > 0 *)
}.

(** [HTMLMediaElement.HAVE_ENOUGH_DATA] *)
Definition HAVE_ENOUGH_DATA : nat := 4.

(** *** State, trace and exception monad

    A computation over a state [S] returns a value or throws, the state
    it leaves, and the platform calls it made, in order. *)
Definition M (S A : Type) : Type := S -> Outcome A * S * list Effect.

Definition ret {S A} (a : A) : M S A := fun s => (Ok a, s, []).

Definition bind {S A B} (m : M S A) (f : A -> M S B) : M S B :=
  fun s =>
    match m s with
    | (Ok a, s1, e1) =>
        match f a s1 with
        | (r, s2, e2) => (r, s2, e1 ++ e2)
        end
    | (Throw t, s1, e1) => (Throw t, s1, e1)
    end.

Definition throw {S A} (t : Thrown) : M S A := fun s => (Throw t, s, []).

(** [try { m } catch (error) { h error }] *)
Definition try_catch {S A} (m : M S A) (h : Thrown -> M S A) : M S A :=
  fun s =>
    match m s with
    | (Ok a, s1, e1) => (Ok a, s1, e1)
    | (Throw t, s1, e1) =>
        match h t s1 with
        | (r, s2, e2) => (r, s2, e1 ++ e2)
        end
    end.

Definition get {S} : M S S := fun s => (Ok s, s, []).
Definition gets {S A} (f : S -> A) : M S A := fun s => (Ok (f s), s, []).
Definition modify {S} (f : S -> S) : M S unit := fun s => (Ok tt, f s, []).
Definition call {S} (e : Effect) : M S unit := fun s => (Ok tt, s, [e]).

(** Run a computation on a component [T] of the state [S]. *)
Definition zoom {S T A} (proj : S -> T) (upd : T -> S -> S) (m : M T A) : M S A :=
  fun s =>
    match m (proj s) with
    | (r, t, e) => (r, upd t s, e)
    end.

(** A platform call that returns, or throws what the platform says. *)
Definition attempt {S} (o : option Thrown) : M S unit :=
  match o with
  | None => ret tt
  | Some t => throw t
  end.

Definition result {S A} (o : Outcome A) : M S A :=
  match o with
  | Ok a => ret a
  | Throw t => throw t
  end.

Definition when {S} (b : bool) (m : M S unit) : M S unit :=
  if b then m else ret tt.

Fixpoint forEach {S A} (l : list A) (f : A -> M S unit) : M S unit :=
  match l with
  | [] => ret tt
  | x :: l' => bind (f x) (fun _ => forEach l' f)
  end.

Declare Scope m_scope.
Delimit Scope m_scope with M.
Notation "x <- m ;; k" := (bind m (fun x => k))
  (at level 61, m at next level, right associativity) : m_scope.
Notation "m ;; k" := (bind m (fun _ => k))
  (at level 61, right associativity) : m_scope.

(** Projections of a run. *)
Definition outcome {S A} (r : Outcome A * S * list Effect) : Outcome A := fst (fst r).
Definition final {S A} (r : Outcome A * S * list Effect) : S := snd (fst r).
Definition trace {S A} (r : Outcome A * S * list Effect) : list Effect := snd r.

(** The events put on the wire by a trace. *)
Fixpoint wire (l : list Effect) : list ClientEvent :=
  match l with
  | [] => []
  | SocketEmit e :: l' => e :: wire l'
  | _ :: l' => wire l'
  end.

End Platform.

(* ===================================================================== *)
(** ** The transport connector: [websocket.ts] *)
(* ===================================================================== *)

Module WS.
Import Platform.
Local Open Scope m_scope.

(** The socket.io [Socket] as the service reads it: [id] is [undefined]
    ([None]) while not connected.  Calls on a socket ([on], [off],
    [emit], [disconnect]) are taken to return normally. *)
Record Socket : Type := mkSocket {
  sock_id : option string;
  sock_connected : bool
}.

(** [class WebSocketService]: its three private fields.  Of the video
    element only its presence is read here. *)
Record WebSocketService : Type := mkService {
  socket : option Socket;
  frameInterval : option nat;
  videoElement : bool
}.

(** [export const wsService = new WebSocketService()] *)
Definition wsService : WebSocketService :=
  {| socket := None; frameInterval := None; videoElement := false |}.

Definition set_socket v (w : WebSocketService) :=
  mkService v (frameInterval w) (videoElement w).
Definition set_frameInterval v (w : WebSocketService) :=
  mkService (socket w) v (videoElement w).
Definition set_videoElement v (w : WebSocketService) :=
  mkService (socket w) (frameInterval w) v.

(** [this.socket?.connected], with [undefined] read as false. *)
Definition socketConnected (w : WebSocketService) : bool :=
  match socket w with
  | Some k => sock_connected k
  | None => false
  end.

(** [this.socket?.id] *)
Definition socketId (w : WebSocketService) : option string :=
  match socket w with
  | Some k => sock_id k
  | None => None
  end.

(** [isConnected(): boolean] *)
Definition isConnected (w : WebSocketService) : bool := socketConnected w.

Definition stopFrameCapture : M WebSocketService unit :=
  h <- gets frameInterval ;;
  match h with
  | Some i => call (ClearInterval i) ;; modify (set_frameInterval None)
  | None => ret tt
  end ;;
  modify (set_videoElement false).

(** [connect()]: the synchronous part of the promise executor.  Returns
    [true] when the promise is resolved at once. *)
Definition connect : M WebSocketService bool :=
  c <- gets socketConnected ;;
  if c then ret true
  else
    modify (set_socket (Some (mkSocket None false))) ;;
    call SocketCreate ;;
    call (SocketOn "connect") ;;
    call (SocketOn "connect_error") ;;
    call (SocketOn "disconnect") ;;
    ret false.

(** The link comes up: socket.io sets [connected] and [id], then runs
    the ['connect'] listener (which logs and resolves the promise). *)
Definition on_connect (id : string) : M WebSocketService unit :=
  k <- gets socket ;;
  match k with
  | Some _ => modify (set_socket (Some (mkSocket (Some id) true)))
  | None => ret tt
  end.

(** The link drops: socket.io clears [connected] and [id], then runs the
    ['disconnect'] listener. *)
Definition on_disconnect : M WebSocketService unit :=
  k <- gets socket ;;
  match k with
  | Some _ => modify (set_socket (Some (mkSocket None false)))
  | None => ret tt
  end ;;
  stopFrameCapture.

Definition on (event : string) : M WebSocketService unit :=
  k <- gets socket ;;
  match k with
  | None => call (ConsoleError "Socket not connected")
  | Some _ => call (SocketOn event)
  end.

Definition off (event : string) : M WebSocketService unit :=
  k <- gets socket ;;
  match k with
  | None => ret tt
  | Some _ => call (SocketOff event)
  end.

Definition emit (e : ClientEvent) : M WebSocketService unit :=
  c <- gets socketConnected ;;
  if negb c then call (ConsoleError "Socket not connected")
  else call (SocketEmit e).

Definition startSession (inputMode : Slice.InputMode) : M WebSocketService unit :=
  emit (start_session inputMode).

Definition saveBackground : M WebSocketService unit :=
  emit save_background.

Definition updateBackground (frame : string) : M WebSocketService unit :=
  emit (update_background frame).

Definition endSession : M WebSocketService unit :=
  id <- gets socketId ;;
  emit (end_session id).

Definition disconnect : M WebSocketService unit :=
  stopFrameCapture ;;
  c <- gets socketConnected ;;
  when c (endSession ;; call SocketDisconnect) ;;
  modify (set_socket None).

(** The closure [captureFrame] of [startFrameCapture]. *)
Definition captureFrame (env : Env) : M WebSocketService unit :=
  v <- gets videoElement ;;
  c <- gets socketConnected ;;
  if negb v || negb c then stopFrameCapture
  else if negb (getContext2d env) then ret tt
  else
    attempt (drawImage env) ;;
    try_catch
      (frameData <- result (toDataURL env) ;;
       emit (process_frame frameData))
      (fun _ => call (ConsoleError "Error capturing frame:")).

(** [startFrameCapture(videoElement, fps = 1)]; the interval delay
    [1000 / fps] in whole milliseconds. *)
Definition startFrameCapture (env : Env) (fps : nat) : M WebSocketService unit :=
  stopFrameCapture ;;
  modify (set_videoElement true) ;;
  captureFrame env ;;
  call (SetInterval (timerHandle env) (1000 / fps)) ;;
  modify (set_frameInterval (Some (timerHandle env))).

End WS.

(* ===================================================================== *)
(** ** The page component: [BackgroundSelectionPage.tsx] *)
(* ===================================================================== *)

Module Page.
Import Platform.
Local Open Scope m_scope.

(** ['info' | 'success' | 'error'] *)
Inductive LogType : Type := log_info | log_success | log_error.

(** [interface LogEntry], without its timestamp. *)
Record LogEntry : Type := mkLog {
  log_message : string;
  log_type : LogType
}.

(** The [<video>] element: the two attributes the handlers write. *)
Record Video : Type := mkVideo {
  srcObject : option MediaStream;
  src : string
}.

(** The component's [useState] cells and [useRef] boxes, together with
    the two objects it shares with the rest of the application: the
    Redux [store] and the [wsService] singleton. *)
Record PageState : Type := mkPage {
  store : Slice.BackgroundSelectionState;
  ws : WS.WebSocketService;
  isCapturing : bool;
  localStream : option MediaStream;
  frameCount : Z;
  fps : Z;
  logs : list LogEntry;
  isUsingVideo : bool;
  videoRef : option Video;
  captureIntervalRef : option nat;
  isCapturingRef : bool
}.

Definition set_store v (s : PageState) :=
  mkPage v (ws s) (isCapturing s) (localStream s) (frameCount s) (fps s)
    (logs s) (isUsingVideo s) (videoRef s) (captureIntervalRef s) (isCapturingRef s).
Definition set_ws v (s : PageState) :=
  mkPage (store s) v (isCapturing s) (localStream s) (frameCount s) (fps s)
    (logs s) (isUsingVideo s) (videoRef s) (captureIntervalRef s) (isCapturingRef s).
Definition set_isCapturing v (s : PageState) :=
  mkPage (store s) (ws s) v (localStream s) (frameCount s) (fps s)
    (logs s) (isUsingVideo s) (videoRef s) (captureIntervalRef s) (isCapturingRef s).
Definition set_localStream v (s : PageState) :=
  mkPage (store s) (ws s) (isCapturing s) v (frameCount s) (fps s)
    (logs s) (isUsingVideo s) (videoRef s) (captureIntervalRef s) (isCapturingRef s).
Definition set_frameCount v (s : PageState) :=
  mkPage (store s) (ws s) (isCapturing s) (localStream s) v (fps s)
    (logs s) (isUsingVideo s) (videoRef s) (captureIntervalRef s) (isCapturingRef s).
Definition set_fps v (s : PageState) :=
  mkPage (store s) (ws s) (isCapturing s) (localStream s) (frameCount s) v
    (logs s) (isUsingVideo s) (videoRef s) (captureIntervalRef s) (isCapturingRef s).
Definition set_logs v (s : PageState) :=
  mkPage (store s) (ws s) (isCapturing s) (localStream s) (frameCount s) (fps s)
    v (isUsingVideo s) (videoRef s) (captureIntervalRef s) (isCapturingRef s).
Definition set_isUsingVideo v (s : PageState) :=
  mkPage (store s) (ws s) (isCapturing s) (localStream s) (frameCount s) (fps s)
    (logs s) v (videoRef s) (captureIntervalRef s) (isCapturingRef s).
Definition set_videoRef v (s : PageState) :=
  mkPage (store s) (ws s) (isCapturing s) (localStream s) (frameCount s) (fps s)
    (logs s) (isUsingVideo s) v (captureIntervalRef s) (isCapturingRef s).
Definition set_captureIntervalRef v (s : PageState) :=
  mkPage (store s) (ws s) (isCapturing s) (localStream s) (frameCount s) (fps s)
    (logs s) (isUsingVideo s) (videoRef s) v (isCapturingRef s).
Definition set_isCapturingRef v (s : PageState) :=
  mkPage (store s) (ws s) (isCapturing s) (localStream s) (frameCount s) (fps s)
    (logs s) (isUsingVideo s) (videoRef s) (captureIntervalRef s) v.

(** JavaScript truthiness of a [string | null]. *)
Definition truthy (o : option string) : bool :=
  match o with
  | None => false
  | Some "" => false
  | Some _ => true
  end.

Definition isSome {A} (o : option A) : bool :=
  match o with Some _ => true | None => false end.

(** *** Plumbing *)

Definition dispatch (a : Slice.Action) : M PageState unit :=
  modify (fun s => set_store (Slice.reducer (store s) a) s).

(** A method call on the [wsService] singleton. *)
Definition onService {A} (m : M WS.WebSocketService A) : M PageState A :=
  zoom ws set_ws m.

(** [addLog(message, type)]: [setLogs(prev => [...prev, entry])]. *)
Definition addLog (msg : string) (ty : LogType) : M PageState unit :=
  modify (fun s => set_logs (logs s ++ [mkLog msg ty]) s).

(** [captureIntervalRef.current = window.setTimeout(captureLoop, ms)] *)
Definition scheduleTick (env : Env) (ms : nat) : M PageState unit :=
  call (SetTimeout (timerHandle env) ms) ;;
  modify (set_captureIntervalRef (Some (timerHandle env))).

(** [if (ref.current !== null) { clearTimeout(ref.current); ref.current = null }] *)
Definition cancelTick : M PageState unit :=
  h <- gets captureIntervalRef ;;
  match h with
  | Some i => call (ClearTimeout i) ;; modify (set_captureIntervalRef None)
  | None => ret tt
  end.

(** *** The capture loop (lines 171-206) *)

(** The guard at the top of every tick. *)
Definition loopGuard (s : PageState) : bool :=
  isCapturingRef s && isSome (videoRef s) && WS.isConnected (ws s).

(** One tick.  The [try] block yields [true] when it left the function
    through one of its [return]s, so that the statement after the
    [try]/[catch] is skipped. *)
Definition captureLoop (env : Env) : M PageState unit :=
  s <- get ;;
  if negb (isCapturingRef s) || negb (isSome (videoRef s))
     || negb (WS.isConnected (ws s))
  then ret tt
  else
    returned <-
      try_catch
        (if negb (readyState env =? HAVE_ENOUGH_DATA)%nat then
           scheduleTick env 100 ;; ret true
         else if negb (getContext2d env) then
           scheduleTick env 1000 ;; ret true
         else
           attempt (drawImage env) ;;
           frameData <- result (toDataURL env) ;;
           onService (WS.emit (process_frame frameData)) ;;
           ret false)
        (fun error =>
           addLog ("Error capturing frame: " ++ errorMessage error)%string log_error ;;
           ret false) ;;
    if returned : bool then ret tt
    else scheduleTick env 1000.

(** *** User handlers *)

(** [track => track.stop()] *)
Definition stopTrack (env : Env) (track : nat) : M PageState unit :=
  call (TrackStop track) ;; attempt (trackStop env).

(** [stopCapture], as the closure of a render in which the state cells
    [localStream] and [isUsingVideo] had the given values. *)
Definition stopCapture (env : Env) (localStream0 : option MediaStream)
    (isUsingVideo0 : bool) : M PageState unit :=
  addLog "Stopping capture..." log_info ;;
  modify (set_isCapturing false) ;;
  cancelTick ;;
  match localStream0 with
  | Some stream =>
      forEach stream (stopTrack env) ;;
      modify (set_localStream None)
  | None => ret tt
  end ;;
  v <- gets videoRef ;;
  match v with
  | Some vid =>
      when (negb isUsingVideo0) (modify (set_videoRef (Some (mkVideo None (src vid)))))
  | None => ret tt
  end ;;
  onService WS.stopFrameCapture ;;
  addLog "Capture stopped" log_info.

(** The Stop button: [stopCapture] of the current render. *)
Definition clickStop (env : Env) : M PageState unit :=
  s <- get ;;
  stopCapture env (localStream s) (isUsingVideo s).

Definition handleSaveBackground : M PageState unit :=
  s <- get ;;
  if negb (WS.isConnected (ws s)) || negb (truthy (Slice.sessionId (store s)))
  then call (Alert "No active session")
  else
    addLog "Saving background..." log_info ;;
    dispatch Slice.A_saveBackgroundRequest ;;
    onService WS.saveBackground.

Definition handleUpdateBackground (env : Env) : M PageState unit :=
  s <- get ;;
  if negb (WS.isConnected (ws s)) || negb (isSome (videoRef s))
  then call (Alert "Not connected")
  else
    try_catch
      (if negb (getContext2d env) then ret tt
       else
         attempt (drawImage env) ;;
         frameData <- result (toDataURL env) ;;
         onService (WS.updateBackground frameData) ;;
         addLog "Updating background with current frame..." log_info)
      (fun error =>
         addLog ("Error updating background: " ++ errorMessage error)%string log_error).

Definition handleProceedToCalibration (env : Env) : M PageState unit :=
  s0 <- get ;;
  addLog "Ending session and proceeding to calibration..." log_info ;;
  try_catch
    (stopCapture env (localStream s0) (isUsingVideo s0) ;;
     onService WS.disconnect ;;
     dispatch Slice.A_handleDisconnected ;;
     addLog "WebSocket disconnected" log_info ;;
     call (Navigate "/calibration"))
    (fun error =>
       addLog ("Error during cleanup: " ++ errorMessage error)%string log_error ;;
       call (Navigate "/calibration")).

Definition handleRedoBackground (env : Env) : M PageState unit :=
  s0 <- get ;;
  addLog "Redoing background selection..." log_info ;;
  try_catch
    (stopCapture env (localStream s0) (isUsingVideo s0) ;;
     c <- gets (fun s => WS.isConnected (ws s)) ;;
     when c (onService WS.disconnect ;; addLog "Session ended" log_success) ;;
     dispatch Slice.A_clearSavedBackground ;;
     dispatch Slice.A_resetSession ;;
     modify (set_frameCount 0%Z) ;;
     modify (set_fps 0%Z) ;;
     modify (set_logs []) ;;
     modify (set_isUsingVideo false) ;;
     v <- gets videoRef ;;
     match v with
     | Some vid =>
         when (isUsingVideo s0)
           (modify (set_videoRef (Some (mkVideo (srcObject vid) ""))) ;;
            when (String.prefix "blob:" (src vid)) (call (RevokeObjectURL (src vid))))
     | None => ret tt
     end ;;
     addLog "Ready to start new background selection" log_success)
    (fun error =>
       addLog ("Error during reset: " ++ errorMessage error)%string log_error ;;
       dispatch Slice.A_clearSavedBackground ;;
       dispatch Slice.A_resetSession ;;
       modify (set_frameCount 0%Z) ;;
       modify (set_fps 0%Z) ;;
       modify (set_logs []) ;;
       modify (set_isUsingVideo false)).

(** *** The rendered controls (lines 470-561) *)

(** [if (savedBackground) return <success view>]: the main view, with
    the [<video>] element and the five controls, is rendered otherwise. *)
Definition mainView (s : PageState) : bool :=
  negb (isSome (Slice.savedBackground (store s))).

Definition connectedStatus (s : PageState) : bool :=
  match Slice.connectionStatus (store s) with
  | Slice.Connected => true
  | _ => false
  end.

(** The [disabled] attribute of each button. *)
Definition startDisabled (s : PageState) : bool :=
  isCapturing s || negb (connectedStatus s) || isUsingVideo s.
Definition uploadDisabled (s : PageState) : bool :=
  isCapturing s || negb (connectedStatus s).
Definition stopDisabled (s : PageState) : bool := negb (isCapturing s).
Definition saveDisabled (s : PageState) : bool :=
  negb (Slice.hasBackground (store s)) || Slice.isLoading (store s).
Definition updateDisabled (s : PageState) : bool := negb (isCapturing s).

(** A click on the Save Background button: nothing happens when the
    button is not rendered or is disabled. *)
Definition clickSave : M PageState unit :=
  s <- get ;;
  if mainView s && negb (saveDisabled s) then handleSaveBackground
  else ret tt.

(** *** Event handlers registered on the socket (lines 92-143) *)

Definition onServerEvent (env : Env) (e : ServerEvent) : M PageState unit :=
  match e with
  | sv_connected _ =>
      addLog "WebSocket connected" log_success ;;
      dispatch Slice.A_handleConnected
  | sv_session_started data =>
      addLog ("Session started: " ++ Slice.ss_session_id data)%string log_success ;;
      dispatch (Slice.A_handleSessionStarted data)
  | sv_frame_processed data =>
      dispatch (Slice.A_handleFrameProcessed data) ;;
      modify (set_frameCount (Slice.frame_count data)) ;;
      match measuredFps env with
      | Some calculatedFps => modify (set_fps calculatedFps)
      | None => ret tt
      end
  | sv_background_saved data =>
      addLog "Background saved successfully" log_success ;;
      dispatch (Slice.A_handleBackgroundSaved data (nowISO env))
  | sv_background_updated data =>
      addLog "Background updated" log_success ;;
      dispatch (Slice.A_handleBackgroundUpdated data)
  | sv_error data =>
      addLog ("Error: " ++ Slice.message data)%string log_error ;;
      dispatch (Slice.A_handleWebSocketError data)
  end.

(** *** The component in its runtime

    What React and the browser keep for the component besides its own
    cells: whether it is mounted, the value of [isCapturing] seen by the
    last commit (the dependency of the two effects at lines 159-218),
    whether the capture-loop effect left a cleanup, where a suspended
    [async] handler waits, whether [connectToWebSocket] still awaits
    [wsService.connect()], and the timeouts that are pending.

    One suspended start is kept, the latest: a start requested while
    another is suspended takes its place here, as it does for the
    [onloadedmetadata] property both assign (lines 245 and 319); the
    pending [getUserMedia] or 500 ms wait of the earlier start, which
    the browser would still resume, is not followed. *)

Inductive Flow : Type :=
| AwaitMedia                               (* await getUserMedia(...)        *)
| AwaitPlay (mode : Slice.InputMode)       (* await the onloadedmetadata promise *)
| AwaitSession (mode : Slice.InputMode).   (* await setTimeout(resolve, 500) *)

Record Runtime : Type := mkRuntime {
  page : PageState;
  mounted : bool;
  committedCapturing : bool;
  loopCleanup : bool;
  flow : option Flow;
  connectPending : bool;
  timers : list nat
}.

Definition set_page v (r : Runtime) :=
  mkRuntime v (mounted r) (committedCapturing r) (loopCleanup r) (flow r)
    (connectPending r) (timers r).
Definition set_mounted v (r : Runtime) :=
  mkRuntime (page r) v (committedCapturing r) (loopCleanup r) (flow r)
    (connectPending r) (timers r).
Definition set_committedCapturing v (r : Runtime) :=
  mkRuntime (page r) (mounted r) v (loopCleanup r) (flow r)
    (connectPending r) (timers r).
Definition set_loopCleanup v (r : Runtime) :=
  mkRuntime (page r) (mounted r) (committedCapturing r) v (flow r)
    (connectPending r) (timers r).
Definition set_flow v (r : Runtime) :=
  mkRuntime (page r) (mounted r) (committedCapturing r) (loopCleanup r) v
    (connectPending r) (timers r).
Definition set_connectPending v (r : Runtime) :=
  mkRuntime (page r) (mounted r) (committedCapturing r) (loopCleanup r) (flow r)
    v (timers r).
Definition set_timers v (r : Runtime) :=
  mkRuntime (page r) (mounted r) (committedCapturing r) (loopCleanup r) (flow r)
    (connectPending r) v.

Definition onPage {A} (m : M PageState A) : M Runtime A :=
  zoom page set_page m.

(** Before the first mount: the store and the service as exported. *)
Definition boot : Runtime :=
  {| page := mkPage Slice.initialState WS.wsService false None 0%Z 0%Z []
               false None None false;
     mounted := false;
     committedCapturing := false;
     loopCleanup := false;
     flow := None;
     connectPending := false;
     timers := [] |}.

(** The continuation of [connectToWebSocket] after its [await]. *)
Definition connectResolved : M PageState unit :=
  dispatch Slice.A_handleConnected ;;
  addLog "Connected to server" log_success.

Definition connectRejected : M PageState unit :=
  call (ConsoleError "Failed to connect:") ;;
  dispatch (Slice.A_setConnectionStatus Slice.ConnError) ;;
  dispatch (Slice.A_handleWebSocketError (Slice.mkMessage "Failed to connect to server")) ;;
  addLog "Failed to connect to server" log_error.

(** Mounting: a new instance (cells and refs at their initial values,
    store and service as they are), then the effect at lines 73-156.
    Timeouts left by an earlier instance are dropped: their callback
    reads that instance's refs, where [videoRef.current] is [null], and
    returns at its guard. *)
Definition mount : M Runtime unit :=
  modify (fun r =>
    mkRuntime
      (mkPage (store (page r)) (ws (page r)) false None 0%Z 0%Z [] false
         None None false)
      true false false None false []) ;;
  onPage (addLog "Setting up WebSocket connection..." log_info) ;;
  onPage (dispatch (Slice.A_setConnectionStatus Slice.Connecting)) ;;
  resolved <- onPage (onService WS.connect) ;;
  onPage (onService (WS.on "connected")) ;;
  onPage (onService (WS.on "session_started")) ;;
  onPage (onService (WS.on "frame_processed")) ;;
  onPage (onService (WS.on "background_saved")) ;;
  onPage (onService (WS.on "background_updated")) ;;
  onPage (onService (WS.on "error")) ;;
  if resolved : bool then onPage connectResolved
  else modify (set_connectPending true).

(** Unmounting runs the effects' cleanups in the order of the effects.
    The first one is the closure made by the first render: its
    [stopCapture] sees [localStream = null] and [isUsingVideo = false]. *)
Definition unmount (env : Env) : M Runtime unit :=
  onPage (addLog "Cleaning up WebSocket" log_info) ;;
  onPage (stopCapture env None false) ;;
  onPage (onService (WS.off "connected")) ;;
  onPage (onService (WS.off "session_started")) ;;
  onPage (onService (WS.off "frame_processed")) ;;
  onPage (onService (WS.off "background_saved")) ;;
  onPage (onService (WS.off "background_updated")) ;;
  onPage (onService (WS.off "error")) ;;
  onPage (onService WS.disconnect) ;;
  lc <- gets loopCleanup ;;
  when lc (onPage cancelTick) ;;
  onPage (modify (set_videoRef None)) ;;
  modify (fun r => set_flow None (set_loopCleanup false (set_mounted false r))).

(** A commit after a handler: the [<video>] ref follows the rendered
    view; when [isCapturing] changed, the capture-loop effect's cleanup
    (lines 212-217), the ref sync (lines 159-161) and the capture-loop
    effect (lines 164-210) run, in this order. *)
Definition commit (env : Env) : M Runtime unit :=
  onPage (modify (fun s =>
    set_videoRef
      (if mainView s then
         match videoRef s with
         | Some v => Some v
         | None => Some (mkVideo None "")
         end
       else None) s)) ;;
  r <- get ;;
  if Bool.eqb (isCapturing (page r)) (committedCapturing r) then ret tt
  else
    when (loopCleanup r) (onPage cancelTick) ;;
    modify (set_loopCleanup false) ;;
    onPage (modify (fun s => set_isCapturingRef (isCapturing s) s)) ;;
    s <- gets page ;;
    (if negb (isCapturing s) || negb (isSome (videoRef s))
        || negb (WS.isConnected (ws s))
     then ret tt
     else
       onPage (addLog "Starting frame capture loop" log_info) ;;
       onPage (captureLoop env) ;;
       modify (set_loopCleanup true)) ;;
    modify (set_committedCapturing (isCapturing s)).

(** *** [startCapture] and [handleVideoUpload], one piece per [await] *)

Definition startCapture_begin : M Runtime unit :=
  onPage (addLog "Requesting camera access..." log_info) ;;
  call GetUserMedia ;;
  modify (set_flow (Some AwaitMedia)).

Definition startCapture_granted (stream : MediaStream) : M Runtime unit :=
  v <- gets (fun r => videoRef (page r)) ;;
  match v with
  | None =>
      onPage (addLog "Video element not found" log_error) ;;
      modify (set_flow None)
  | Some vid =>
      onPage (modify (set_localStream (Some stream))) ;;
      onPage (modify (set_videoRef (Some (mkVideo (Some stream) (src vid))))) ;;
      modify (set_flow (Some (AwaitPlay Slice.camera)))
  end.

Definition startCapture_denied (error : Thrown) : M Runtime unit :=
  onPage (addLog ("Error starting capture: " ++ errorMessage error)%string log_error) ;;
  call (Alert ("Failed to start camera: " ++ errorMessage error)%string) ;;
  modify (set_flow None).

Definition handleVideoUpload_begin (name url : string) : M Runtime unit :=
  onPage (addLog ("Loading video file: " ++ name)%string log_info) ;;
  v <- gets (fun r => videoRef (page r)) ;;
  match v with
  | None => onPage (addLog "Video element not found" log_error)
  | Some vid =>
      call (CreateObjectURL url) ;;
      onPage (modify (set_videoRef (Some (mkVideo (srcObject vid) url)))) ;;
      onPage (modify (set_isUsingVideo true)) ;;
      modify (set_flow (Some (AwaitPlay Slice.file)))
  end.

(** [play()] settled ([playError = None] when it resolved); then the
    session is requested and the 500 ms wait begins. *)
Definition videoPlayed (mode : Slice.InputMode) (playError : option string)
    : M Runtime unit :=
  onPage
    (match playError with
     | None =>
         addLog (match mode with
                 | Slice.camera => "Video started playing"
                 | Slice.file => "Video loaded and playing"
                 end) log_success
     | Some msg => addLog ("Error playing video: " ++ msg)%string log_error
     end) ;;
  onPage (match mode with
          | Slice.camera => addLog "Camera access granted" log_success
          | Slice.file => ret tt
          end) ;;
  onPage (dispatch Slice.A_startSessionRequest) ;;
  onPage (onService (WS.startSession mode)) ;;
  modify (set_flow (Some (AwaitSession mode))).

(** The 500 ms have passed. *)
Definition sessionWaitElapsed (mode : Slice.InputMode) : M Runtime unit :=
  onPage (modify (set_isCapturing true)) ;;
  onPage (addLog (match mode with
                  | Slice.camera => "Started capturing frames"
                  | Slice.file => "Started capturing frames from video"
                  end) log_success) ;;
  modify (set_flow None).

(** *** Events and the step function *)

Inductive Event : Type :=
| Mount
| NavigateAway
| SocketConnect (id : string)
| SocketConnectError
| SocketDrop
| Server (e : ServerEvent)
| ClickStart
| MediaGranted (stream : MediaStream)
| MediaDenied (error : Thrown)
| ClickUpload (name url : string)
| VideoPlaying (playError : option string)
| SessionWaitElapsed
| Tick (h : nat)
| ClickStop
| ClickSave
| ClickUpdate
| ClickProceed
| ClickRedo.

Definition handle (env : Env) (e : Event) : M Runtime unit :=
  match e with
  | Mount => mount
  | NavigateAway => unmount env
  | SocketConnect id =>
      onPage (onService (WS.on_connect id)) ;;
      p <- gets connectPending ;;
      when p (onPage connectResolved ;; modify (set_connectPending false))
  | SocketConnectError =>
      call (ConsoleError "WebSocket connection error:") ;;
      p <- gets connectPending ;;
      when p (onPage connectRejected ;; modify (set_connectPending false))
  | SocketDrop => onPage (onService WS.on_disconnect)
  | Server ev => onPage (onServerEvent env ev)
  | ClickStart => startCapture_begin
  | MediaGranted stream => startCapture_granted stream
  | MediaDenied error => startCapture_denied error
  | ClickUpload name url => handleVideoUpload_begin name url
  | VideoPlaying playError =>
      f <- gets flow ;;
      match f with
      | Some (AwaitPlay mode) => videoPlayed mode playError
      | _ => ret tt
      end
  | SessionWaitElapsed =>
      f <- gets flow ;;
      match f with
      | Some (AwaitSession mode) => sessionWaitElapsed mode
      | _ => ret tt
      end
  | Tick _ => onPage (captureLoop env)
  | ClickStop => onPage (clickStop env)
  | ClickSave => onPage clickSave
  | ClickUpdate => onPage (handleUpdateBackground env)
  | ClickProceed => onPage (handleProceedToCalibration env) ;; unmount env
  | ClickRedo => onPage (handleRedoBackground env)
  end.

(** When the browser can deliver an event. *)
Definition enabled (r : Runtime) (e : Event) : bool :=
  match e with
  | Mount => negb (mounted r)
  | NavigateAway => mounted r
  | SocketConnect _ | SocketConnectError =>
      isSome (WS.socket (ws (page r))) && negb (WS.isConnected (ws (page r)))
  | SocketDrop => WS.isConnected (ws (page r))
  | Server _ => mounted r && WS.isConnected (ws (page r))
  | ClickStart => mounted r && mainView (page r) && negb (startDisabled (page r))
  | MediaGranted _ | MediaDenied _ =>
      match flow r with Some AwaitMedia => true | _ => false end
  | ClickUpload _ _ => mounted r && mainView (page r) && negb (uploadDisabled (page r))
  | VideoPlaying _ =>
      match flow r with Some (AwaitPlay _) => isSome (videoRef (page r)) | _ => false end
  | SessionWaitElapsed =>
      match flow r with Some (AwaitSession _) => true | _ => false end
  | Tick h => existsb (Nat.eqb h) (timers r)
  | ClickStop => mounted r && mainView (page r) && negb (stopDisabled (page r))
  | ClickSave => mounted r && mainView (page r) && negb (saveDisabled (page r))
  | ClickUpdate => mounted r && mainView (page r) && negb (updateDisabled (page r))
  | ClickProceed | ClickRedo => mounted r && negb (mainView (page r))
  end.

(** The browser's timer table after the calls of a trace. *)
Fixpoint runTimers (l : list Effect) (ts : list nat) : list nat :=
  match l with
  | [] => ts
  | SetTimeout h _ :: l' => runTimers l' (h :: ts)
  | ClearTimeout h :: l' =>
      runTimers l' (filter (fun x => negb (Nat.eqb x h)) ts)
  | _ :: l' => runTimers l' ts
  end.

(** One event: a fired timeout leaves the table, the handler runs, the
    component commits when it is mounted, and the timer calls made take
    effect.  An exception the handler lets escape ends the handler
    there and goes to the browser; the updates made before it stay
    queued, so the component commits all the same. *)
Definition step (env : Env) (r : Runtime) (e : Event) : Runtime * list Effect :=
  let r0 :=
    match e with
    | Tick h => set_timers (filter (fun x => negb (Nat.eqb x h)) (timers r)) r
    | _ => r
    end in
  let run :=
    (try_catch (handle env e) (fun _ => ret tt) ;;
     (m <- gets mounted ;; when m (commit env))) r0 in
  (set_timers (runTimers (trace run) (timers (final run))) (final run), trace run).

(** A run: each event with what the platform answers during it. *)
Fixpoint steps (r : Runtime) (l : list (Env * Event)) : Runtime * list Effect :=
  match l with
  | [] => (r, [])
  | (env, e) :: l' =>
      let (r1, t1) := step env r e in
      let (r2, t2) := steps r1 l' in
      (r2, t1 ++ t2)
  end.

(** Every event of the run was deliverable when it came. *)
Fixpoint allEnabled (r : Runtime) (l : list (Env * Event)) : bool :=
  match l with
  | [] => true
  | (env, e) :: l' => enabled r e && allEnabled (fst (step env r e)) l'
  end.

End Page.

(* ===================================================================== *)
(** ** The calibration page: [CalibrationPage.tsx] *)
(* ===================================================================== *)

Module Calibration.

Section Numbers.

(** JavaScript numbers, with the three operations [handleImageClick]
    applies to them. *)
Variable number : Type.
Variables sub mul div : number -> number -> number.

(** [interface Point] *)
Record Point : Type := mkPoint {
  p_x : number;
  p_y : number;
  p_order : nat
}.

(** [interface Coordinate] *)
Record Coordinate : Type := mkCoordinate {
  c_lat : number;
  c_lng : number;
  c_order : nat
}.

(** The four [useState] cells of the component. *)
Record CalibrationState : Type := mkCalibration {
  imagePoints : list Point;
  mapCoordinates : list Coordinate;
  originCoordinate : option (number * number);
  selectingOrigin : bool
}.

Definition initialCalibration : CalibrationState :=
  {| imagePoints := [];
     mapCoordinates := [];
     originCoordinate := None;
     selectingOrigin := false |}.

(** What a click reads from the [<img>] element and from the event. *)
Record Image : Type := mkImage {
  width : number;
  height : number;
  naturalWidth : number;
  naturalHeight : number
}.

Record MouseEvent : Type := mkMouseEvent {
  clientX : number;
  clientY : number;
  rectLeft : number;
  rectTop : number
}.

Definition set_imagePoints v (s : CalibrationState) :=
  mkCalibration v (mapCoordinates s) (originCoordinate s) (selectingOrigin s).
Definition set_mapCoordinates v (s : CalibrationState) :=
  mkCalibration (imagePoints s) v (originCoordinate s) (selectingOrigin s).
Definition set_originCoordinate v (s : CalibrationState) :=
  mkCalibration (imagePoints s) (mapCoordinates s) v (selectingOrigin s).
Definition set_selectingOrigin v (s : CalibrationState) :=
  mkCalibration (imagePoints s) (mapCoordinates s) (originCoordinate s) v.

(** [imgElementRef.current] is [img]. *)
Definition handleImageClick (img : option Image) (e : MouseEvent)
    (s : CalibrationState) : CalibrationState :=
  match img with
  | None => s
  | Some im =>
      let clickX := sub (clientX e) (rectLeft e) in
      let clickY := sub (clientY e) (rectTop e) in
      let scaleX := div (naturalWidth im) (width im) in
      let scaleY := div (naturalHeight im) (height im) in
      let actualX := mul clickX scaleX in
      let actualY := mul clickY scaleY in
      let newPoint := mkPoint actualX actualY (length (imagePoints s) + 1) in
      set_imagePoints (imagePoints s ++ [newPoint]) s
  end.

Definition handleMapClick (lat lng : number) (s : CalibrationState)
    : CalibrationState :=
  if selectingOrigin s then
    set_selectingOrigin false (set_originCoordinate (Some (lat, lng)) s)
  else
    let newCoord := mkCoordinate lat lng (length (mapCoordinates s) + 1) in
    set_mapCoordinates (mapCoordinates s ++ [newCoord]) s.

Definition handleReset (s : CalibrationState) : CalibrationState :=
  set_selectingOrigin false
    (set_originCoordinate None
       (set_mapCoordinates [] (set_imagePoints [] s))).

(** [handleSelectOrigin], besides its [alert]. *)
Definition handleSelectOrigin (s : CalibrationState) : CalibrationState :=
  set_selectingOrigin true s.

(** The body of the request [handleCalibrate] posts. *)
Record Payload : Type := mkPayload {
  pixels : list (number * number);
  coordinates : list (number * number);
  origin : option (number * number);
  name : string;
  image : string
}.

Definition calibratePayload (savedBackground : option Slice.SavedBackground)
    (s : CalibrationState) : Payload :=
  {| pixels := map (fun p => (p_x p, p_y p)) (imagePoints s);
     coordinates := map (fun c => (c_lat c, c_lng c)) (mapCoordinates s);
     origin := originCoordinate s;
     name := "test_calibration";
     image := match savedBackground with
              | Some sb => Slice.sb_image sb
              | None => ""
              end |}.

(** What the operator can do on the page: click the image, click the
    map, press either Reset button ([() => setImagePoints([])],
    [() => setMapCoordinates([])]) or Select Origin. *)
Inductive Event : Type :=
| ImageClick (img : option Image) (e : MouseEvent)
| MapClick (lat lng : number)
| ResetImage
| ResetMap
| SelectOrigin.

Definition step (s : CalibrationState) (ev : Event) : CalibrationState :=
  match ev with
  | ImageClick img e => handleImageClick img e s
  | MapClick lat lng => handleMapClick lat lng s
  | ResetImage => set_imagePoints [] s
  | ResetMap => set_mapCoordinates [] s
  | SelectOrigin => handleSelectOrigin s
  end.

Definition run (l : list Event) : CalibrationState :=
  fold_left step l initialCalibration.

End Numbers.

Arguments p_x {number}.
Arguments p_y {number}.
Arguments p_order {number}.
Arguments c_lat {number}.
Arguments c_lng {number}.
Arguments c_order {number}.
Arguments imagePoints {number}.
Arguments mapCoordinates {number}.
Arguments originCoordinate {number}.
Arguments selectingOrigin {number}.
Arguments pixels {number}.
Arguments coordinates {number}.
Arguments origin {number}.
Arguments handleMapClick {number}.
Arguments handleSelectOrigin {number}.
Arguments handleReset {number}.
Arguments calibratePayload {number}.
Arguments step {number}.
Arguments run {number}.

End Calibration.

(* ===================================================================== *)
(** ** Vocabulary of the properties *)
(* ===================================================================== *)

Import Platform.

(** The store after a sequence of [frame_processed] events. *)
Definition frameProcessedAll (s : Slice.BackgroundSelectionState)
    (evs : list Slice.FrameProcessedPayload) : Slice.BackgroundSelectionState :=
  fold_left (fun st p => Slice.handleFrameProcessed p st) evs s.

(** The end/disconnect transition read as clearing the session: the
    identifier null, both active flags false, the saved artifact kept. *)
Definition endClearsSession (s : Slice.BackgroundSelectionState) : Prop :=
  let s' := Slice.handleDisconnected s in
  Slice.sessionId s' = None /\
  Slice.isSessionActive s' = false /\
  Slice.isProcessing s' = false /\
  Slice.savedBackground s' = Slice.savedBackground s.

(** Actions named as the explicit clear and the full reset. *)
Definition isClearOrReset (a : Slice.Action) : bool :=
  match a with
  | Slice.A_clearSavedBackground | Slice.A_resetAll => true
  | _ => false
  end.

(** The saved artifact read as immutable under every other action. *)
Definition savedImmutable (s : Slice.BackgroundSelectionState) : Prop :=
  Slice.savedBackground s <> None ->
  forall a, isClearOrReset a = false ->
    Slice.savedBackground (Slice.reducer s a) = Slice.savedBackground s.

(** A run that puts nothing on the wire and leaves the state as it was. *)
Definition noOp {S A} (m : M S A) (s : S) : Prop :=
  wire (trace (m s)) = [] /\ final (m s) = s.

(** The four steps of a teardown, as they show in a trace. *)
Inductive TeardownStep : Type :=
| CancelLoop                 (* clearTimeout of the pending tick *)
| ReleaseMedia (track : nat) (* track.stop()                     *)
| NotifyEnd                  (* emit end_session                 *)
| CloseLink.                 (* socket.disconnect()              *)

Fixpoint teardown (l : list Effect) : list TeardownStep :=
  match l with
  | [] => []
  | ClearTimeout _ :: l' => CancelLoop :: teardown l'
  | TrackStop t :: l' => ReleaseMedia t :: teardown l'
  | SocketEmit (end_session _) :: l' => NotifyEnd :: teardown l'
  | SocketDisconnect :: l' => CloseLink :: teardown l'
  | _ :: l' => teardown l'
  end.

(** All four steps, once each and in order, for a stream of tracks. *)
Definition fullTeardown (stream : MediaStream) : list TeardownStep :=
  CancelLoop :: map ReleaseMedia stream ++ [NotifyEnd; CloseLink].


(** The capture loop's rate, "1 FPS = 1000ms" (line 204). *)
Definition targetRateHz : nat := 1.
Definition tickPeriodMs : nat := 1000 / targetRateHz.
Definition retryDelayMs : nat := 100.

(** The [frames] emitted and the timeouts set by a trace. *)
Fixpoint frames (l : list Effect) : list string :=
  match l with
  | [] => []
  | SocketEmit (process_frame f) :: l' => f :: frames l'
  | _ :: l' => frames l'
  end.

Fixpoint timeouts (l : list Effect) : list (nat * nat) :=
  match l with
  | [] => []
  | SetTimeout h ms :: l' => (h, ms) :: timeouts l'
  | _ :: l' => timeouts l'
  end.

(** What [track.stop()] over the tracks of a stream amounts to: every
    track is stopped, up to the first call that throws. *)
Definition stopTracks (o : option Thrown) (stream : MediaStream)
    : Outcome unit * list Effect :=
  match o, stream with
  | None, _ => (Ok tt, map TrackStop stream)
  | Some t, [] => (Ok tt, [])
  | Some t, track :: _ => (Throw t, [TrackStop track])
  end.

(** The [clearInterval] call [stopFrameCapture] makes, if any. *)
Definition intervalCalls (w : WS.WebSocketService) : list Effect :=
  match WS.frameInterval w with
  | Some i => [ClearInterval i]
  | None => []
  end.

(** The service once its link is gone. *)
Definition unlinked : WS.WebSocketService :=
  {| WS.socket := None; WS.frameInterval := None; WS.videoElement := false |}.

(** *** Assertions on runs

    [triple P m Q E]: from a state satisfying [P], [m] either returns
    [a] in a state satisfying [Q a], or throws [t] in a state
    satisfying [E t].  [keeps P m]: [m] maintains [P] however it ends. *)
Definition triple {S A} (P : S -> Prop) (m : M S A)
    (Q : A -> S -> Prop) (E : Thrown -> S -> Prop) : Prop :=
  forall s, P s ->
    match outcome (m s) with
    | Ok a => Q a (final (m s))
    | Throw t => E t (final (m s))
    end.

Definition keeps {S A} (P : S -> Prop) (m : M S A) : Prop :=
  triple P m (fun _ => P) (fun _ => P).

(** [silent X m]: no call made by [m] is in the class [X]. *)
Definition silent {S A} (X : Effect -> bool) (m : M S A) : Prop :=
  forall s, forallb (fun e => negb (X e)) (trace (m s)) = true.

Definition isFrameEmit (e : Effect) : bool :=
  match e with SocketEmit (process_frame _) => true | _ => false end.


(** A step read as emitting frames only inside an active session. *)
Definition framesInSession (env : Env) (r : Page.Runtime) (e : Page.Event) : Prop :=
  frames (snd (Page.step env r e)) <> [] ->
  Slice.isSessionActive (Page.store (Page.page (fst (Page.step env r e)))) = true.

(** [disconnect()] read as tearing the link down whatever the state: a
    socket the service holds is closed. *)
Definition tearsLinkDown (w : WS.WebSocketService) : Prop :=
  WS.socket w <> None -> In SocketDisconnect (trace (WS.disconnect w)).

(** The intervals set by a trace. *)
Fixpoint intervals (l : list Effect) : list (nat * nat) :=
  match l with
  | [] => []
  | SetInterval h ms :: l' => (h, ms) :: intervals l'
  | _ :: l' => intervals l'
  end.

(** A tick read as retrying when the video has no frame ready: nothing
    is emitted and one timeout is set, at [retryDelayMs]. *)
Definition retriesWhenNotReady (env : Env) (l : list Effect) : Prop :=
  readyState env <> HAVE_ENOUGH_DATA ->
  frames l = [] /\ exists h, timeouts l = [(h, retryDelayMs)].

(** The state a redo leaves: no saved artifact, no session, counters
    and status as at the start. *)
Definition redone (s : Page.PageState) : Prop :=
  Slice.savedBackground (Page.store s) = None /\
  Slice.sessionId (Page.store s) = None /\
  Slice.isSessionActive (Page.store s) = false /\
  Slice.currentFrame (Page.store s) = None /\
  Slice.isProcessing (Page.store s) = false /\
  Slice.hasStartedProcessing (Page.store s) = false /\
  Slice.hasBackground (Page.store s) = false /\
  Slice.processingStatus (Page.store s) = "Not started" /\
  Slice.error (Page.store s) = None /\
  Slice.success (Page.store s) = None /\
  Page.frameCount s = 0%Z /\
  Page.fps s = 0%Z.

(** The store holds a saved artifact. *)
Definition hasSaved (s : Page.PageState) : Prop :=
  Slice.savedBackground (Page.store s) <> None.

(** *** Sample inputs *)

(** Two acknowledgments of a save, as the server may send them. *)
Definition firstSave : Slice.BackgroundSavedPayload :=
  Slice.mkBackgroundSaved "saved" "image-1" "s1" None.
Definition secondSave : Slice.BackgroundSavedPayload :=
  Slice.mkBackgroundSaved "saved" "image-2" "s1"
    (Some (Slice.mkWireMetadata 640 480 12)).

(** A platform on which everything succeeds. *)
Definition env0 : Env :=
  {| timerHandle := 1;
     readyState := HAVE_ENOUGH_DATA;
     getContext2d := true;
     drawImage := None;
     toDataURL := Ok "data:image/jpeg;base64,AA";
     trackStop := None;
     nowISO := "2024-01-01T00:00:00.000Z";
     measuredFps := None |}.

(** The same platform with a video that has no frame ready. *)
Definition envNotReady : Env :=
  {| timerHandle := 1;
     readyState := 2;
     getContext2d := true;
     drawImage := None;
     toDataURL := Ok "data:image/jpeg;base64,AA";
     trackStop := None;
     nowISO := "2024-01-01T00:00:00.000Z";
     measuredFps := None |}.


(** The page opens, the link comes up, the operator starts the camera,
    grants access, the video plays, and the 500 ms wait ends. *)
Definition startRun : list (Env * Page.Event) :=
  [ (env0, Page.Mount);
    (env0, Page.SocketConnect "sock1");
    (env0, Page.ClickStart);
    (env0, Page.MediaGranted [7]);
    (env0, Page.VideoPlaying None) ].

Definition awaitingSession : Page.Runtime :=
  Eval vm_compute in fst (Page.steps Page.boot startRun).

(** The same run once the wait has ended and the server has answered:
    the session ["s1"] is active and frames are being sent. *)
Definition capturing : Page.Runtime :=
  Eval vm_compute in fst (Page.steps awaitingSession
    [ (env0, Page.SessionWaitElapsed);
      (env0, Page.Server (sv_session_started (Slice.mkSessionStarted "s1"))) ]).

(** ... and once a background was reported, saved and acknowledged. *)
Definition saved : Page.Runtime :=
  Eval vm_compute in fst (Page.steps capturing
    [ (env0, Page.Server (sv_frame_processed
                            (Slice.mkFrameProcessed "img" 1 "ok" true)));
      (env0, Page.ClickSave);
      (env0, Page.Server (sv_background_saved
                            (Slice.mkBackgroundSaved "saved" "bg" "s1" None))) ]).

(** *** Further vocabulary *)

(** What the flags of the store say about its other fields. *)
Definition sliceInvariant (s : Slice.BackgroundSelectionState) : Prop :=
  (Slice.isSessionActive s = true -> Slice.hasStartedProcessing s = true) /\
  (Slice.hasStartedProcessing s = true -> Slice.sessionId s <> None) /\
  (Slice.isProcessing s = true -> Slice.currentFrame s <> None) /\
  (Slice.hasBackground s = true -> Slice.currentFrame s <> None).

(** The link of the service is not up. *)
Definition linkDown (w : WS.WebSocketService) : Prop := WS.isConnected w = false.

(** The service holds no socket. *)
Definition socketless (w : WS.WebSocketService) : Prop := WS.socket w = None.

(** [quiet P X m]: from a state satisfying [P], [m] makes no call of
    the class [X] and ends in a state satisfying [P]. *)
Definition quiet {S A} (P : S -> Prop) (X : Effect -> bool) (m : M S A) : Prop :=
  forall s, P s ->
    forallb (fun e => negb (X e)) (trace (m s)) = true /\ P (final (m s)).

Definition isSocketEmit (e : Effect) : bool :=
  match e with SocketEmit _ => true | _ => false end.

Definition isStartSession (e : Effect) : bool :=
  match e with SocketEmit (start_session _) => true | _ => false end.

Definition isTrackStop (e : Effect) : bool :=
  match e with TrackStop _ => true | _ => false end.

Definition isFrameOrTimeout (e : Effect) : bool :=
  match e with
  | SocketEmit (process_frame _) | SetTimeout _ _ => true
  | _ => false
  end.

(** Server events delivered in order to the page's listeners. *)
Definition deliverAll (env : Env) (l : list ServerEvent) (s : Page.PageState)
    : Page.PageState :=
  fold_left (fun st ev => final (Page.onServerEvent env ev st)) l s.

(** Server events whose listener leaves [isLoading] as it is. *)
Definition keepsLoading (ev : ServerEvent) : bool :=
  match ev with
  | sv_connected _ | sv_frame_processed _ | sv_background_updated _ => true
  | sv_session_started _ | sv_background_saved _ | sv_error _ => false
  end.

(** A platform on which [drawImage] throws. *)
Definition envDrawFails : Env :=
  {| timerHandle := 1;
     readyState := HAVE_ENOUGH_DATA;
     getContext2d := true;
     drawImage := Some (ThrownError "InvalidStateError");
     toDataURL := Ok "data:image/jpeg;base64,AA";
     trackStop := None;
     nowISO := "2024-01-01T00:00:00.000Z";
     measuredFps := None |}.

(** The session ["s1"] after the transport dropped, and the page after
    the redo that follows the save. *)
Definition dropped : Page.Runtime :=
  Eval vm_compute in fst (Page.step env0 capturing Page.SocketDrop).

Definition afterRedo : Page.Runtime :=
  Eval vm_compute in fst (Page.step env0 saved Page.ClickRedo).


(** A list numbered 1, 2, 3, ... by [order]. *)
Definition numbered {A} (order : A -> nat) (l : list A) : Prop :=
  map order l = seq 1 (length l).

(* ===================================================================== *)
(** ** Properties of the slice *)
(* ===================================================================== *)

Section SliceProperties.
Import Slice.

Lemma handleDisconnected_fields (s : BackgroundSelectionState) :
  handleDisconnected s =
  mkState (inputMode s) (selectedFileName s) (sessionId s) false
    (currentFrame s) (savedBackground s) false (isLoading s)
    (error s) (success s) (hasStartedProcessing s) Disconnected
    (processingStatus s) (hasBackground s).
Proof. reflexivity. Qed.

(** C3 (as stated, refuted): after [session_started {session_id: "s1"}]
    the end/disconnect transition leaves the session identifier ["s1"]
    in place, so it does not clear it. *)
Lemma handleDisconnected_keeps_sessionId :
  ~ endClearsSession
      (handleSessionStarted (mkSessionStarted "s1") initialState).
Proof.
  unfold endClearsSession. cbn. intros [H _]. discriminate H.
Qed.

(** C3 (amended): for every state, [handleDisconnected] sets the
    connection status to disconnected and both active flags
    ([isSessionActive], [isProcessing]) to false, and leaves every other
    field as it was: the session identifier stays, and [savedBackground]
    is exactly the one held before. *)
Theorem handleDisconnected_spec (s : BackgroundSelectionState) :
  let s' := handleDisconnected s in
  connectionStatus s' = Disconnected /\
  isSessionActive s' = false /\
  isProcessing s' = false /\
  sessionId s' = sessionId s /\
  savedBackground s' = savedBackground s /\
  inputMode s' = inputMode s /\
  selectedFileName s' = selectedFileName s /\
  currentFrame s' = currentFrame s /\
  isLoading s' = isLoading s /\
  error s' = error s /\
  success s' = success s /\
  hasStartedProcessing s' = hasStartedProcessing s /\
  processingStatus s' = processingStatus s /\
  hasBackground s' = hasBackground s.
Proof.
  rewrite handleDisconnected_fields. cbn. repeat split.
Qed.

(** C4 (as stated, refuted): in the reachable state that follows a first
    [background_saved], a second [background_saved] -- which is neither
    the explicit clear nor the full reset -- replaces the artifact.  The
    page delivers such an event to the store: after the save of the
    session ["s1"] it is deliverable and changes the artifact. *)
Lemma savedBackground_overwritten :
  (reachable (handleBackgroundSaved firstSave "t1" initialState) /\
   ~ savedImmutable (handleBackgroundSaved firstSave "t1" initialState)) /\
  (Page.enabled saved (Page.Server (sv_background_saved secondSave)) = true /\
   savedBackground (Page.store (Page.page saved)) <> None /\
   savedBackground
     (Page.store (Page.page
        (fst (Page.step env0 saved (Page.Server (sv_background_saved secondSave))))))
   <> savedBackground (Page.store (Page.page saved))).
Proof.
  split; [split|split; [|split]].
  - exact (reach_step initialState (A_handleBackgroundSaved firstSave "t1") reach_init).
  - intros H.
    specialize (H ltac:(discriminate) (A_handleBackgroundSaved secondSave "t2") eq_refl).
    discriminate H.
  - reflexivity.
  - discriminate.
  - vm_compute. discriminate.
Qed.

(** C4 (amended): for every state and every action, [savedBackground]
    after the action is the artifact built from the payload when the
    action is [handleBackgroundSaved] (which overwrites an earlier one),
    null when it is [clearSavedBackground] or [resetAll], and the value
    held before in every other case. *)
Theorem savedBackground_after (s : BackgroundSelectionState) (a : Action) :
  savedBackground (reducer s a) =
  match a with
  | A_handleBackgroundSaved p now =>
      Some (mkSavedBackground (background_image p) (bs_session_id p) now
              (toCamelCase (bs_metadata p)))
  | A_clearSavedBackground | A_resetAll => None
  | _ => savedBackground s
  end.
Proof.
  destruct a; reflexivity.
Qed.

Lemma frameProcessedAll_snoc s evs p :
  frameProcessedAll s (evs ++ [p]) = handleFrameProcessed p (frameProcessedAll s evs).
Proof.
  unfold frameProcessedAll. rewrite fold_left_app. reflexivity.
Qed.

Lemma frameProcessedAll_all_false s evs :
  hasBackground s = false ->
  forallb (fun p => negb (has_background p)) evs = true ->
  hasBackground (frameProcessedAll s evs) = false.
Proof.
  revert s. induction evs as [|p evs IH]; intros s Hs Hall; cbn in *.
  - exact Hs.
  - apply andb_true_iff in Hall. destruct Hall as [Hp Hrest].
    apply IH; [|exact Hrest].
    cbn. now apply negb_true_iff in Hp.
Qed.

(** C9: after any sequence of [frame_processed] events, [hasBackground]
    equals the [has_background] flag of the last event; so, from false,
    it stays false as long as every event carries false, and is true
    right after the first event that carries true. *)
Theorem hasBackground_follows_last_event :
  (forall s evs p,
     hasBackground (frameProcessedAll s (evs ++ [p])) = has_background p) /\
  (forall s evs p,
     hasBackground s = false ->
     forallb (fun q => negb (has_background q)) evs = true ->
     has_background p = true ->
     hasBackground (frameProcessedAll s evs) = false /\
     hasBackground (frameProcessedAll s (evs ++ [p])) = true).
Proof.
  split.
  - intros s evs p. rewrite frameProcessedAll_snoc. reflexivity.
  - intros s evs p Hs Hall Hp. split.
    + now apply frameProcessedAll_all_false.
    + rewrite frameProcessedAll_snoc. exact Hp.
Qed.

(** The scenario of the specification: flags false, false, true. *)
Lemma hasBackground_scenario :
  let f := mkFrameProcessed "img" 1 "warming up" false in
  let t := mkFrameProcessed "img" 3 "background ready" true in
  hasBackground (frameProcessedAll initialState [f; f]) = false /\
  hasBackground (frameProcessedAll initialState ([f; f] ++ [t])) = true.
Proof.
  intros f t.
  exact (proj2 hasBackground_follows_last_event initialState [f; f] t
           eq_refl eq_refl eq_refl).
Defined.

End SliceProperties.

(* ===================================================================== *)
(** ** Properties of the transport connector *)
(* ===================================================================== *)

Section ConnectorProperties.
Import WS.

Lemma stopFrameCapture_run (w : WebSocketService) :
  stopFrameCapture w =
  (Ok tt, mkService (socket w) None false, intervalCalls w).
Proof.
  destruct w as [k [i|] v]; reflexivity.
Qed.

Lemma emit_run (e : ClientEvent) (w : WebSocketService) :
  emit e w =
  (Ok tt, w, if isConnected w then [SocketEmit e]
             else [ConsoleError "Socket not connected"]).
Proof.
  unfold emit, isConnected, bind, gets, call.
  destruct (socketConnected w); reflexivity.
Qed.

Lemma endSession_run (w : WebSocketService) :
  endSession w =
  (Ok tt, w, if isConnected w then [SocketEmit (end_session (socketId w))]
             else [ConsoleError "Socket not connected"]).
Proof.
  unfold endSession, bind, gets. rewrite emit_run.
  destruct (isConnected w); reflexivity.
Qed.

Lemma disconnect_run (w : WebSocketService) :
  disconnect w =
  (Ok tt, unlinked,
   intervalCalls w ++
   if isConnected w
   then [SocketEmit (end_session (socketId w)); SocketDisconnect]
   else []).
Proof.
  destruct w as [[[id [|]]|] [i|] v]; reflexivity.
Qed.

Lemma wire_app (l1 l2 : list Effect) : wire (l1 ++ l2) = wire l1 ++ wire l2.
Proof.
  induction l1 as [|e l1 IH]; [reflexivity|].
  destruct e; cbn; rewrite IH; reflexivity.
Qed.

Lemma wire_intervalCalls (w : WebSocketService) : wire (intervalCalls w) = [].
Proof.
  unfold intervalCalls. destruct (frameInterval w); reflexivity.
Qed.

(** C7 (as stated, refuted): the page is opened and left before the
    socket has connected.  Mounting created the socket; on leaving,
    [disconnect()] finds it not connected (line 65), makes no call on
    it and only drops the reference: the link is not torn down. *)
Lemma disconnect_forgets_connecting_socket :
  let r := fst (Page.step env0 Page.boot Page.Mount) in
  Page.allEnabled Page.boot [(env0, Page.Mount); (env0, Page.NavigateAway)] = true /\
  In SocketCreate (snd (Page.step env0 Page.boot Page.Mount)) /\
  socket (Page.ws (Page.page r)) = Some (mkSocket None false) /\
  ~ In SocketDisconnect (snd (Page.step env0 r Page.NavigateAway)) /\
  socket (Page.ws (Page.page (fst (Page.step env0 r Page.NavigateAway)))) = None /\
  ~ tearsLinkDown (Page.ws (Page.page r)).
Proof.
  intros r. split; [vm_compute; reflexivity|].
  split; [left; reflexivity|].
  split; [reflexivity|].
  split.
  - vm_compute. intros H.
    repeat (destruct H as [H|H]; [discriminate H|]). exact H.
  - split; [reflexivity|].
    unfold tearsLinkDown. intros H.
    assert (Hs : socket (Page.ws (Page.page r)) <> None) by discriminate.
    specialize (H Hs). vm_compute in H. exact H.
Qed.

(** C7 (amended): for every state of the connector, [disconnect()]
    returns normally and leaves the service without a socket reference
    (and without a capture interval); when the socket is connected it
    emits [end_session] and then closes the socket, in this order, so a
    session that is active over a live link always gets its
    notification; when the socket is not connected it emits nothing and
    makes no call on a socket, so a second [disconnect()] only repeats
    the no-op.  The socket is closed only in the first case: the link is
    torn down exactly when the service holds no socket or a connected
    one, and a socket that is still connecting is dropped without being
    closed. *)
Theorem disconnect_spec :
  (forall w, outcome (disconnect w) = Ok tt) /\
  (forall w, final (disconnect w) = unlinked /\
             isConnected (final (disconnect w)) = false) /\
  (forall w, isConnected w = true ->
     trace (disconnect w) =
     intervalCalls w ++ [SocketEmit (end_session (socketId w)); SocketDisconnect]) /\
  (forall w, isConnected w = false -> trace (disconnect w) = intervalCalls w) /\
  (forall w, disconnect (final (disconnect w)) = (Ok tt, unlinked, [])) /\
  (forall s : Page.PageState,
     Slice.isSessionActive (Page.store s) = true ->
     isConnected (Page.ws s) = true ->
     wire (trace (Page.onService disconnect s)) =
     [end_session (socketId (Page.ws s))]) /\
  (forall w, tearsLinkDown w <-> socket w = None \/ isConnected w = true).
Proof.
  split; [|split; [|split; [|split; [|split; [|split]]]]].
  - intros w. rewrite disconnect_run. reflexivity.
  - intros w. rewrite disconnect_run. split; reflexivity.
  - intros w H. rewrite disconnect_run. cbn. rewrite H. reflexivity.
  - intros w H. rewrite disconnect_run. cbn. rewrite H. apply app_nil_r.
  - intros w. rewrite (disconnect_run w). unfold final. cbn [fst snd].
    rewrite disconnect_run. reflexivity.
  - intros s _ H. unfold Page.onService, zoom. rewrite disconnect_run. cbn.
    rewrite H, wire_app, wire_intervalCalls. reflexivity.
  - intros w. unfold tearsLinkDown. rewrite disconnect_run.
    destruct w as [[[id [|]]|] [i|] v]; cbn; split; intros H.
    + right. reflexivity.
    + intros _. right. right. left. reflexivity.
    + right. reflexivity.
    + intros _. right. left. reflexivity.
    + exfalso. assert (Hs : Some (mkSocket id false) <> None) by discriminate.
      destruct (H Hs) as [Hx|[]]. discriminate Hx.
    + destruct H as [H|H]; discriminate H.
    + exfalso. assert (Hs : Some (mkSocket id false) <> None) by discriminate.
      exact (H Hs).
    + destruct H as [H|H]; discriminate H.
    + left. reflexivity.
    + intros Hs. now elim Hs.
    + left. reflexivity.
    + intros Hs. now elim Hs.
Qed.

(** [disconnect()] on the live link of the started session, and again;
    and on the socket of a page that was just opened. *)
Lemma disconnect_scenario :
  let w := Page.ws (Page.page capturing) in
  let w0 := Page.ws (Page.page (fst (Page.step env0 Page.boot Page.Mount))) in
  trace (disconnect w) =
    [SocketEmit (end_session (Some "sock1")); SocketDisconnect] /\
  trace (disconnect (final (disconnect w))) = [] /\
  wire (trace (Page.onService disconnect (Page.page capturing))) =
    [end_session (Some "sock1")] /\
  trace (disconnect w0) = [] /\
  tearsLinkDown w.
Proof.
  intros w w0. split; [|split; [|split; [|split]]].
  - exact (proj1 (proj2 (proj2 disconnect_spec)) w eq_refl).
  - exact (proj1 (proj2 (proj2 (proj2 disconnect_spec)))
             (final (disconnect w)) eq_refl).
  - exact (proj1 (proj2 (proj2 (proj2 (proj2 (proj2 disconnect_spec)))))
             (Page.page capturing) eq_refl eq_refl).
  - exact (proj1 (proj2 (proj2 (proj2 disconnect_spec))) w0 eq_refl).
  - exact (proj2 (proj2 (proj2 (proj2 (proj2 (proj2 (proj2 disconnect_spec))))) w)
             (or_intror eq_refl)).
Defined.

(** C10: the [end_session] payload carries the socket's own id.
    Whatever [endSession()] or [disconnect()] put on the wire is the
    single event [end_session {session_id: socket.id}], sent when the
    link is up; without a socket the id is undefined (and nothing is
    sent).  The session identifier issued by the server and held in the
    store is not read: proceeding to calibration in the session ["s1"]
    notifies with the socket id ["sock1"]. *)
Theorem end_session_carries_socket_id :
  (forall w, wire (trace (endSession w)) =
             if isConnected w then [end_session (socketId w)] else []) /\
  (forall w, wire (trace (disconnect w)) =
             if isConnected w then [end_session (socketId w)] else []) /\
  (forall w, socket w = None ->
     socketId w = None /\ wire (trace (endSession w)) = []) /\
  (Slice.sessionId (Page.store (Page.page saved)) = Some "s1" /\
   wire (trace (Page.handleProceedToCalibration env0 (Page.page saved))) =
   [end_session (Some "sock1")]).
Proof.
  split; [|split; [|split; [|split]]].
  - intros w. rewrite endSession_run. destruct (isConnected w); reflexivity.
  - intros w. rewrite disconnect_run. cbn.
    rewrite wire_app, wire_intervalCalls. destruct (isConnected w); reflexivity.
  - intros w H. split.
    + unfold socketId. rewrite H. reflexivity.
    + rewrite endSession_run. unfold isConnected, socketConnected. rewrite H.
      reflexivity.
  - reflexivity.
  - reflexivity.
Qed.

(** [endSession()] on a service that has no socket. *)
Lemma end_session_without_socket :
  socketId wsService = None /\ wire (trace (endSession wsService)) = [].
Proof.
  exact (proj1 (proj2 (proj2 end_session_carries_socket_id)) wsService eq_refl).
Defined.

End ConnectorProperties.

(* ===================================================================== *)
(** ** Reasoning about runs *)
(* ===================================================================== *)

Section Runs.
Context {S : Type}.

Lemma run_eta {A} (r : Outcome A * S * list Effect) :
  r = (outcome r, final r, trace r).
Proof. destruct r as [[o s] t]. reflexivity. Qed.

Lemma bind_ok {A B} (m : M S A) (f : A -> M S B) s a :
  outcome (m s) = Ok a ->
  bind m f s =
  (outcome (f a (final (m s))), final (f a (final (m s))),
   trace (m s) ++ trace (f a (final (m s)))).
Proof.
  unfold bind, outcome, final, trace.
  destruct (m s) as [[o s1] e1]; cbn. intros ->.
  destruct (f a s1) as [[r s2] e2]. reflexivity.
Qed.

Lemma bind_throw {A B} (m : M S A) (f : A -> M S B) s t :
  outcome (m s) = Throw t ->
  bind m f s = (Throw t, final (m s), trace (m s)).
Proof.
  unfold bind, outcome, final, trace.
  destruct (m s) as [[o s1] e1]; cbn. intros ->. reflexivity.
Qed.

Lemma try_catch_ok {A} (m : M S A) (h : Thrown -> M S A) s a :
  outcome (m s) = Ok a -> try_catch m h s = m s.
Proof.
  unfold try_catch, outcome.
  destruct (m s) as [[o s1] e1]; cbn. intros ->. reflexivity.
Qed.

Lemma try_catch_throw {A} (m : M S A) (h : Thrown -> M S A) s t :
  outcome (m s) = Throw t ->
  try_catch m h s =
  (outcome (h t (final (m s))), final (h t (final (m s))),
   trace (m s) ++ trace (h t (final (m s)))).
Proof.
  unfold try_catch, outcome, final, trace.
  destruct (m s) as [[o s1] e1]; cbn. intros ->.
  destruct (h t s1) as [[r s2] e2]. reflexivity.
Qed.

(** *** Rules for [triple] *)

Lemma triple_weaken {A} (P P' : S -> Prop) (m : M S A) Q Q' E E' :
  triple P' m Q' E' ->
  (forall s, P s -> P' s) ->
  (forall a s, Q' a s -> Q a s) ->
  (forall t s, E' t s -> E t s) ->
  triple P m Q E.
Proof.
  intros H HP HQ HE s Hs. specialize (H s (HP s Hs)).
  destruct (outcome (m s)); auto.
Qed.

Lemma triple_any {A} (P : S -> Prop) (m : M S A) :
  triple P m (fun _ _ => True) (fun _ _ => True).
Proof.
  intros s _. destruct (outcome (m s)); exact I.
Qed.

Lemma triple_ret {A} (P : S -> Prop) (a : A) Q E :
  (forall s, P s -> Q a s) -> triple P (ret a) Q E.
Proof. intros H s Hs. cbn. auto. Qed.

Lemma triple_throw {A} (P : S -> Prop) (t : Thrown) (Q : A -> S -> Prop) E :
  (forall s, P s -> E t s) -> triple P (throw t) Q E.
Proof. intros H s Hs. cbn. auto. Qed.

Lemma triple_get (P : S -> Prop) Q E :
  (forall s, P s -> Q s s) -> triple P get Q E.
Proof. intros H s Hs. cbn. auto. Qed.

Lemma triple_gets {A} (P : S -> Prop) (f : S -> A) Q E :
  (forall s, P s -> Q (f s) s) -> triple P (gets f) Q E.
Proof. intros H s Hs. cbn. auto. Qed.

Lemma triple_modify (P : S -> Prop) (f : S -> S) Q E :
  (forall s, P s -> Q tt (f s)) -> triple P (modify f) Q E.
Proof. intros H s Hs. cbn. auto. Qed.

Lemma triple_call (P : S -> Prop) (e : Effect) Q E :
  (forall s, P s -> Q tt s) -> triple P (call e) Q E.
Proof. intros H s Hs. cbn. auto. Qed.

Lemma triple_bind {A B} (P : S -> Prop) (m : M S A) (f : A -> M S B)
    (R : A -> S -> Prop) Q E :
  triple P m R E ->
  (forall a, triple (R a) (f a) Q E) ->
  triple P (bind m f) Q E.
Proof.
  intros Hm Hf s Hs. specialize (Hm s Hs).
  destruct (outcome (m s)) as [a|t] eqn:Ho.
  - rewrite (bind_ok m f s a Ho). cbn. exact (Hf a _ Hm).
  - rewrite (bind_throw m f s t Ho). cbn. exact Hm.
Qed.

Lemma triple_try_catch {A} (P : S -> Prop) (m : M S A) (h : Thrown -> M S A)
    (R : Thrown -> S -> Prop) Q E :
  triple P m Q R ->
  (forall t, triple (R t) (h t) Q E) ->
  triple P (try_catch m h) Q E.
Proof.
  intros Hm Hh s Hs. specialize (Hm s Hs).
  destruct (outcome (m s)) as [a|t] eqn:Ho.
  - rewrite (try_catch_ok m h s a Ho), Ho. exact Hm.
  - rewrite (try_catch_throw m h s t Ho). cbn. exact (Hh t _ Hm).
Qed.

Lemma triple_when (P : S -> Prop) (b : bool) (m : M S unit) Q E :
  (b = true -> triple P m Q E) ->
  (b = false -> forall s, P s -> Q tt s) ->
  triple P (when b m) Q E.
Proof.
  destruct b; cbn; intros H1 H2.
  - auto.
  - apply triple_ret. auto.
Qed.

(** A state change followed by [k]: the assertion [k] needs is carried
    back through the change. *)
Lemma triple_modify_then {B} (P P' : S -> Prop) (f : S -> S)
    (k : unit -> M S B) Q E :
  triple P' (k tt) Q E ->
  (forall s, P s -> P' (f s)) ->
  triple P (bind (modify f) k) Q E.
Proof.
  intros Hk Hf. apply (triple_bind P (modify f) k (fun _ => P')).
  - apply triple_modify. intros s Hs. exact (Hf s Hs).
  - intros []. exact Hk.
Qed.

(** *** Rules for [keeps] *)

Lemma keeps_any_true {A} (m : M S A) : keeps (fun _ => True) m.
Proof. apply triple_any. Qed.

Lemma keeps_ret {A} (P : S -> Prop) (a : A) : keeps P (ret a).
Proof. apply triple_ret. auto. Qed.

Lemma keeps_throw {A} (P : S -> Prop) (t : Thrown) : keeps P (@throw S A t).
Proof. apply triple_throw. auto. Qed.

Lemma keeps_get (P : S -> Prop) : keeps P get.
Proof. apply triple_get. auto. Qed.

Lemma keeps_gets {A} (P : S -> Prop) (f : S -> A) : keeps P (gets f).
Proof. apply triple_gets. auto. Qed.

Lemma keeps_call (P : S -> Prop) (e : Effect) : keeps P (call e).
Proof. apply triple_call. auto. Qed.

Lemma keeps_attempt (P : S -> Prop) (o : option Thrown) : keeps P (attempt o).
Proof. destruct o; [apply keeps_throw | apply keeps_ret]. Qed.

Lemma keeps_result {A} (P : S -> Prop) (o : Outcome A) : keeps P (result o).
Proof. destruct o; [apply keeps_ret | apply keeps_throw]. Qed.

Lemma keeps_modify (P : S -> Prop) (f : S -> S) :
  (forall s, P s -> P (f s)) -> keeps P (modify f).
Proof. intros H. apply triple_modify. exact H. Qed.

Lemma keeps_bind {A B} (P : S -> Prop) (m : M S A) (f : A -> M S B) :
  keeps P m -> (forall a, keeps P (f a)) -> keeps P (bind m f).
Proof. intros Hm Hf. eapply triple_bind; [exact Hm | exact Hf]. Qed.

Lemma keeps_try_catch {A} (P : S -> Prop) (m : M S A) (h : Thrown -> M S A) :
  keeps P m -> (forall t, keeps P (h t)) -> keeps P (try_catch m h).
Proof. intros Hm Hh. eapply triple_try_catch; [exact Hm | exact Hh]. Qed.

Lemma keeps_when (P : S -> Prop) (b : bool) (m : M S unit) :
  keeps P m -> keeps P (when b m).
Proof. intros H. destruct b; [exact H | apply keeps_ret]. Qed.

Lemma keeps_forEach {A} (P : S -> Prop) (l : list A) (f : A -> M S unit) :
  (forall a, keeps P (f a)) -> keeps P (forEach l f).
Proof.
  intros H. induction l as [|a l IH]; cbn.
  - apply keeps_ret.
  - apply keeps_bind; [apply H | intros _; exact IH].
Qed.

Lemma keeps_final {A} (P : S -> Prop) (m : M S A) s :
  keeps P m -> P s -> P (final (m s)).
Proof.
  intros H Hs. specialize (H s Hs). destruct (outcome (m s)); exact H.
Qed.

(** *** Rules for [silent] *)

Lemma forallb_app_true {A} (p : A -> bool) (l1 l2 : list A) :
  forallb p l1 = true -> forallb p l2 = true -> forallb p (l1 ++ l2) = true.
Proof. intros H1 H2. rewrite forallb_app, H1, H2. reflexivity. Qed.

Lemma silent_ret {A} X (a : A) : silent X (@ret S A a).
Proof. intros s. reflexivity. Qed.

Lemma silent_throw {A} X (t : Thrown) : silent X (@throw S A t).
Proof. intros s. reflexivity. Qed.

Lemma silent_get X : silent X (@get S).
Proof. intros s. reflexivity. Qed.

Lemma silent_gets {A} X (f : S -> A) : silent X (gets f).
Proof. intros s. reflexivity. Qed.

Lemma silent_modify X (f : S -> S) : silent X (modify f).
Proof. intros s. reflexivity. Qed.

Lemma silent_call X (e : Effect) : X e = false -> silent X (@call S e).
Proof. intros H s. cbn. rewrite H. reflexivity. Qed.

Lemma silent_attempt X (o : option Thrown) : silent X (@attempt S o).
Proof. destruct o; [apply silent_throw | apply silent_ret]. Qed.

Lemma silent_result {A} X (o : Outcome A) : silent X (@result S A o).
Proof. destruct o; [apply silent_ret | apply silent_throw]. Qed.

Lemma silent_bind {A B} X (m : M S A) (f : A -> M S B) :
  silent X m -> (forall a, silent X (f a)) -> silent X (bind m f).
Proof.
  intros Hm Hf s. specialize (Hm s).
  destruct (outcome (m s)) as [a|t] eqn:Ho.
  - rewrite (bind_ok m f s a Ho). cbn.
    apply forallb_app_true; [exact Hm | apply Hf].
  - rewrite (bind_throw m f s t Ho). exact Hm.
Qed.

Lemma silent_try_catch {A} X (m : M S A) (h : Thrown -> M S A) :
  silent X m -> (forall t, silent X (h t)) -> silent X (try_catch m h).
Proof.
  intros Hm Hh s. specialize (Hm s).
  destruct (outcome (m s)) as [a|t] eqn:Ho.
  - rewrite (try_catch_ok m h s a Ho). exact Hm.
  - rewrite (try_catch_throw m h s t Ho). cbn.
    apply forallb_app_true; [exact Hm | apply Hh].
Qed.

Lemma silent_when X (b : bool) (m : M S unit) :
  silent X m -> silent X (when b m).
Proof. intros H. destruct b; [exact H | apply silent_ret]. Qed.

Lemma silent_forEach {A} X (l : list A) (f : A -> M S unit) :
  (forall a, silent X (f a)) -> silent X (forEach l f).
Proof.
  intros H. induction l as [|a l IH]; cbn.
  - apply silent_ret.
  - apply silent_bind; [apply H | intros _; exact IH].
Qed.

End Runs.

Lemma keeps_zoom {S T A} (P : S -> Prop) (Q : T -> Prop)
    (proj : S -> T) (upd : T -> S -> S) (m : M T A) :
  (forall s, P s -> Q (proj s)) ->
  (forall s t, P s -> Q t -> P (upd t s)) ->
  keeps Q m -> keeps P (zoom proj upd m).
Proof.
  intros H1 H2 Hm s Hs. specialize (Hm (proj s) (H1 s Hs)).
  unfold zoom, outcome, final in *.
  destruct (m (proj s)) as [[o t] e]; cbn in *.
  destruct o; apply H2; assumption.
Qed.

Lemma silent_zoom {S T A} X (proj : S -> T) (upd : T -> S -> S) (m : M T A) :
  silent X m -> silent X (zoom proj upd m).
Proof.
  intros Hm s. specialize (Hm (proj s)).
  unfold zoom, trace in *. destruct (m (proj s)) as [[o t] e]. exact Hm.
Qed.

(* ===================================================================== *)
(** ** Properties of the page *)
(* ===================================================================== *)

Section PageProperties.
Import Page.

Lemma forEach_tracks (env : Env) (stream : MediaStream) (s : PageState) :
  forEach stream (stopTrack env) s =
  (fst (stopTracks (trackStop env) stream), s,
   snd (stopTracks (trackStop env) stream)).
Proof.
  unfold stopTrack. destruct (trackStop env) as [t|].
  - destruct stream; reflexivity.
  - induction stream as [|x l IH]; [reflexivity|].
    cbn [forEach]. rewrite (bind_ok _ _ s tt) by reflexivity.
    change (final (bind (call (TrackStop x)) (fun _ => attempt None) s)) with s.
    rewrite IH. reflexivity.
Qed.



(** Symbolic execution of a handler up to the loop over the tracks. *)
Ltac run_handler :=
  cbv -[forEach stopTrack app teardown wire frames timeouts map fullTeardown
        String.prefix Nat.eqb].

(** *** Save *)

Lemma handleSaveBackground_rejects (s : PageState) :
  WS.isConnected (ws s) = false \/ truthy (Slice.sessionId (store s)) = false ->
  handleSaveBackground s = (Ok tt, s, [Alert "No active session"]).
Proof.
  intros H. unfold handleSaveBackground, bind, get.
  destruct H as [H|H]; rewrite H; cbn [negb orb].
  - reflexivity.
  - rewrite orb_true_r. reflexivity.
Qed.

Lemma handleSaveBackground_sends (s : PageState) :
  WS.isConnected (ws s) = true ->
  truthy (Slice.sessionId (store s)) = true ->
  trace (handleSaveBackground s) = [SocketEmit save_background] /\
  store (final (handleSaveBackground s)) = Slice.saveBackgroundRequest (store s).
Proof.
  intros Hc Hs. unfold handleSaveBackground.
  rewrite (bind_ok _ _ s s) by reflexivity.
  change (final (get s)) with s. rewrite Hc, Hs. cbn [negb orb].
  destruct s as [st w ic ls fc fp lg iuv vr cir icr].
  destruct w as [[[id c]|] fi ve]; cbn in Hc; try discriminate Hc. subst c.
  split; reflexivity.
Qed.

(** The handler does not read [hasBackground] itself: run on the state
    of the session ["s1"] before any background was reported, it would
    put [save_background] on the wire.  The page never runs it there:
    its only caller is the Save Background button (lines 549-554),
    which is disabled in that state. *)
Lemma handleSaveBackground_ignores_hasBackground :
  Slice.hasBackground (store (page capturing)) = false /\
  ~ noOp handleSaveBackground (page capturing).
Proof.
  split; [reflexivity|].
  intros [H _]. discriminate H.
Qed.

(** C2: the save-background operation of the page is a click on the
    Save Background button, the only caller of [handleSaveBackground].
    For every state in which [hasBackground] is false or the session
    identifier is absent (null or empty), the click returns normally,
    sends nothing and changes no state (third part).  Two guards make
    it so.  The button is disabled while [hasBackground] is false or a
    request is loading.  The handler sends nothing and changes nothing
    when the link is not up or the session identifier is absent (first
    part); with the link up and an identifier present it emits
    [save_background] (second part). *)
Theorem save_request_guards :
  (forall s,
     WS.isConnected (ws s) = false \/ truthy (Slice.sessionId (store s)) = false ->
     outcome (handleSaveBackground s) = Ok tt /\ noOp handleSaveBackground s) /\
  (forall s,
     WS.isConnected (ws s) = true -> truthy (Slice.sessionId (store s)) = true ->
     wire (trace (handleSaveBackground s)) = [save_background]) /\
  (forall s,
     Slice.hasBackground (store s) = false \/
     truthy (Slice.sessionId (store s)) = false ->
     outcome (clickSave s) = Ok tt /\ noOp clickSave s).
Proof.
  split; [|split].
  - intros s H. rewrite (handleSaveBackground_rejects s H).
    unfold noOp. rewrite (handleSaveBackground_rejects s H). repeat split.
  - intros s Hc Hs. destruct (handleSaveBackground_sends s Hc Hs) as [-> _].
    reflexivity.
  - intros s H. unfold noOp, clickSave, bind, get.
    destruct (mainView s && negb (saveDisabled s)) eqn:Hen.
    + destruct H as [H|H].
      * apply andb_true_iff in Hen. destruct Hen as [_ Hen].
        unfold saveDisabled in Hen. rewrite H in Hen. discriminate Hen.
      * rewrite (handleSaveBackground_rejects s (or_intror H)). repeat split.
    + repeat split.
Qed.

(** The guards at work: no session identifier (a click right after the
    link came up), and the session ["s1"] with a background reported. *)
Lemma save_request_scenario :
  noOp handleSaveBackground (page awaitingSession) /\
  noOp clickSave (page capturing) /\
  wire (trace (handleSaveBackground (page capturing))) = [save_background].
Proof.
  split; [|split].
  - exact (proj2 (proj1 save_request_guards (page awaitingSession)
                    (or_intror eq_refl))).
  - exact (proj2 (proj2 (proj2 save_request_guards) (page capturing)
                    (or_introl eq_refl))).
  - exact (proj1 (proj2 save_request_guards) (page capturing) eq_refl eq_refl).
Defined.

(** *** The capture tick *)

Lemma loopGuard_true (s : PageState) :
  loopGuard s = true ->
  isCapturingRef s = true /\ isSome (videoRef s) = true /\
  WS.isConnected (ws s) = true.
Proof.
  unfold loopGuard. intros H.
  apply andb_true_iff in H. destruct H as [H H3].
  apply andb_true_iff in H. destruct H as [H1 H2]. auto.
Qed.

Lemma captureLoop_outside_guard (env : Env) (s : PageState) :
  loopGuard s = false -> captureLoop env s = (Ok tt, s, []).
Proof.
  unfold loopGuard, captureLoop. intros H.
  rewrite (bind_ok _ _ s s) by reflexivity. change (final (get s)) with s.
  destruct (isCapturingRef s), (isSome (videoRef s)), (WS.isConnected (ws s));
    try discriminate H; reflexivity.
Qed.

(** The tick of the page's loop.  A tick that passes the guard never
    throws and always leaves a timeout pending.  If the video has no
    frame ready, all it does is set a retry after 100 ms.  Otherwise it
    sets exactly one timeout, at the fixed period of 1000 ms
    (1000 / targetRateHz), whether or not a canvas context was obtained
    and whether or not drawing or encoding threw; it emits at most one
    frame; and when the JPEG encoding succeeds it emits that frame under
    the name [process_frame] and then sets the timeout. *)
Lemma captureLoop_tick (env : Env) (s : PageState) :
  loopGuard s = true ->
  outcome (captureLoop env s) = Ok tt /\
  captureIntervalRef (final (captureLoop env s)) = Some (timerHandle env) /\
  (readyState env <> HAVE_ENOUGH_DATA ->
     trace (captureLoop env s) = [SetTimeout (timerHandle env) retryDelayMs]) /\
  (readyState env = HAVE_ENOUGH_DATA ->
     timeouts (trace (captureLoop env s)) = [(timerHandle env, tickPeriodMs)] /\
     (length (frames (trace (captureLoop env s))) <= 1)%nat /\
     (forall frame,
        getContext2d env = true -> drawImage env = None ->
        toDataURL env = Ok frame ->
        eventName (process_frame frame) = "process_frame" /\
        trace (captureLoop env s) =
        [SocketEmit (process_frame frame);
         SetTimeout (timerHandle env) tickPeriodMs])).
Proof.
  intros Hg. apply loopGuard_true in Hg. destruct Hg as (H1 & H2 & H3).
  destruct s as [st w ic ls fc fp lg iuv vr cir icr].
  destruct w as [[[id c]|] fi ve]; cbn in H1, H2, H3; try discriminate H3.
  destruct vr as [vid|]; try discriminate H2. subst icr c.
  destruct env as [th rs gc di td ts now mf].
  unfold retryDelayMs, tickPeriodMs, targetRateHz; cbn [timerHandle readyState
    getContext2d drawImage toDataURL Nat.div Nat.divmod fst].
  destruct (Nat.eqb_spec rs HAVE_ENOUGH_DATA) as [Heq|Hne].
  - subst rs.
    destruct gc, di as [t1|], td as [frame|t2]; run_handler;
      (split; [reflexivity|split; [reflexivity|split; [intros H; now elim H|]]]);
      intros _; (split; [reflexivity|split; [auto|]]);
      intros frame' Hgc Hdi Htd; try discriminate;
      injection Htd as <-; split; reflexivity.
  - assert (Hb : (rs =? HAVE_ENOUGH_DATA)%nat = false) by now apply Nat.eqb_neq.
    unfold captureLoop. run_handler.
    change (Nat.eqb rs 4) with (rs =? HAVE_ENOUGH_DATA)%nat. rewrite Hb.
    run_handler.
    split; [reflexivity|split; [reflexivity|split; [reflexivity|]]].
    intros H. now elim Hne.
Qed.

(** The tick of the service's loop, the closure [captureFrame] of
    [startFrameCapture] (websocket.ts, lines 126-147), with the video
    attached and the socket connected. *)
Lemma captureFrame_run (env : Env) (w : WS.WebSocketService) :
  WS.videoElement w = true -> WS.isConnected w = true ->
  WS.captureFrame env w =
  if negb (getContext2d env) then (Ok tt, w, [])
  else
    match drawImage env, toDataURL env with
    | Some t, _ => (Throw t, w, [])
    | None, Ok frame => (Ok tt, w, [SocketEmit (process_frame frame)])
    | None, Throw _ => (Ok tt, w, [ConsoleError "Error capturing frame:"])
    end.
Proof.
  destruct env as [th rs gc di td ts now mf].
  destruct w as [[[id [|]]|] fi v]; cbn; intros Hv Hc;
    try discriminate Hc; subst v.
  destruct gc, di as [t1|], td as [frame|t2]; reflexivity.
Qed.

Lemma startFrameCapture_run (env : Env) (fps : nat) (w : WS.WebSocketService) :
  let first := WS.captureFrame env (WS.mkService (WS.socket w) None true) in
  WS.startFrameCapture env fps w =
  match outcome first with
  | Ok _ =>
      (Ok tt, WS.mkService (WS.socket (final first)) (Some (timerHandle env))
                (WS.videoElement (final first)),
       intervalCalls w ++ trace first ++
       [SetInterval (timerHandle env) (1000 / fps)])
  | Throw t => (Throw t, final first, intervalCalls w ++ trace first)
  end.
Proof.
  destruct env as [th rs gc di td ts now mf].
  destruct w as [[[id [|]]|] [i|] v];
    destruct gc, di as [t1|], td as [frame|t2]; reflexivity.
Qed.

(** C8 (as stated, refuted): the service's loop on the live link of the
    session ["s1"], at a moment when the video has no frame ready.
    [startFrameCapture] and the tick it schedules never read
    [readyState]: each emits a frame all the same, and neither sets a
    retry after 100 ms. *)
Lemma service_tick_has_no_retry :
  let w := ws (page capturing) in
  let w' := final (WS.startFrameCapture envNotReady 1 w) in
  readyState envNotReady <> HAVE_ENOUGH_DATA /\
  trace (WS.startFrameCapture envNotReady 1 w) =
    [SocketEmit (process_frame "data:image/jpeg;base64,AA"); SetInterval 1 1000] /\
  trace (WS.captureFrame envNotReady w') =
    [SocketEmit (process_frame "data:image/jpeg;base64,AA")] /\
  ~ retriesWhenNotReady envNotReady (trace (WS.startFrameCapture envNotReady 1 w)) /\
  ~ retriesWhenNotReady envNotReady (trace (WS.captureFrame envNotReady w')).
Proof.
  intros w w'.
  assert (Hn : readyState envNotReady <> HAVE_ENOUGH_DATA) by discriminate.
  split; [exact Hn|]. split; [reflexivity|]. split; [reflexivity|].
  split; intros H; destruct (H Hn) as [Hf _]; discriminate Hf.
Qed.

(** C8 (amended): the claim holds for every tick of the page's loop,
    [captureLoop], that passes its guard: the tick never throws and
    always leaves a timeout pending; if the video has no frame ready,
    all it does is set a retry after 100 ms; otherwise it sets exactly
    one timeout, at the fixed period of 1000 ms (1000 / targetRateHz),
    whether or not a canvas context was obtained and whether or not
    drawing or encoding threw, it emits at most one frame, and when the
    JPEG encoding succeeds it emits that frame under the name
    [process_frame] and then sets the timeout.

    The loop of the service, [startFrameCapture], which no component
    calls, differs.  Its tick, with the video attached and the socket
    connected, does not depend on [readyState] and sets no timer: it
    emits at most one frame, the encoded frame under the name
    [process_frame] when drawing and encoding succeed, and it throws
    when drawing throws.  The ticks are scheduled once, by one interval
    at 1000 / fps ms set after the first capture: when
    [startFrameCapture] returns exactly that interval was set, and when
    the first capture throws none was. *)
Theorem capture_ticks (env : Env) :
  (forall s,
     loopGuard s = true ->
     outcome (captureLoop env s) = Ok tt /\
     captureIntervalRef (final (captureLoop env s)) = Some (timerHandle env) /\
     (readyState env <> HAVE_ENOUGH_DATA ->
        trace (captureLoop env s) = [SetTimeout (timerHandle env) retryDelayMs]) /\
     (readyState env = HAVE_ENOUGH_DATA ->
        timeouts (trace (captureLoop env s)) = [(timerHandle env, tickPeriodMs)] /\
        (length (frames (trace (captureLoop env s))) <= 1)%nat /\
        (forall frame,
           getContext2d env = true -> drawImage env = None ->
           toDataURL env = Ok frame ->
           eventName (process_frame frame) = "process_frame" /\
           trace (captureLoop env s) =
           [SocketEmit (process_frame frame);
            SetTimeout (timerHandle env) tickPeriodMs]))) /\
  (forall w,
     WS.videoElement w = true -> WS.isConnected w = true ->
     (forall rs,
        WS.captureFrame
          (mkEnv (timerHandle env) rs (getContext2d env) (drawImage env)
                 (toDataURL env) (trackStop env) (nowISO env) (measuredFps env)) w =
        WS.captureFrame env w) /\
     timeouts (trace (WS.captureFrame env w)) = [] /\
     intervals (trace (WS.captureFrame env w)) = [] /\
     (length (frames (trace (WS.captureFrame env w))) <= 1)%nat /\
     (forall frame,
        getContext2d env = true -> drawImage env = None ->
        toDataURL env = Ok frame ->
        WS.captureFrame env w = (Ok tt, w, [SocketEmit (process_frame frame)])) /\
     (forall t,
        getContext2d env = true -> drawImage env = Some t ->
        WS.captureFrame env w = (Throw t, w, []))) /\
  (forall fps w,
     timeouts (trace (WS.startFrameCapture env fps w)) = [] /\
     (forall a,
        outcome (WS.startFrameCapture env fps w) = Ok a ->
        intervals (trace (WS.startFrameCapture env fps w)) =
          [(timerHandle env, 1000 / fps)] /\
        WS.frameInterval (final (WS.startFrameCapture env fps w)) =
          Some (timerHandle env)) /\
     (forall t,
        outcome (WS.startFrameCapture env fps w) = Throw t ->
        drawImage env = Some t /\
        intervals (trace (WS.startFrameCapture env fps w)) = [] /\
        WS.frameInterval (final (WS.startFrameCapture env fps w)) = None)).
Proof.
  split; [|split].
  - intros s Hg. exact (captureLoop_tick env s Hg).
  - intros w Hv Hc.
    split; [intros rs; rewrite !captureFrame_run by assumption; reflexivity|].
    rewrite (captureFrame_run env w Hv Hc).
    destruct env as [th rs gc di td ts now mf]; cbn.
    destruct gc, di as [t1|], td as [frame|t2]; cbn;
      (split; [reflexivity|split; [reflexivity|split; [auto|]]]);
      (split;
       [ intros x Hg Hd Ht;
         try discriminate Hg; try discriminate Hd; try discriminate Ht;
         injection Ht as <-; reflexivity
       | intros x Hg Hd; try discriminate Hg; try discriminate Hd;
         injection Hd as <-; reflexivity ]).
  - intros fps w.
    destruct env as [th rs gc di td ts now mf].
    destruct w as [[[id [|]]|] [i|] v];
      destruct gc, di as [t1|], td as [frame|t2];
      (split; [reflexivity|split]);
      intros x H; try discriminate H;
      try (injection H as <-); repeat split.
Qed.

(** Ticks in the session ["s1"]: of the page's loop with no frame ready
    and with a frame, and of the service's loop with no frame ready. *)
Lemma capture_ticks_scenario :
  trace (captureLoop envNotReady (page capturing)) = [SetTimeout 1 100] /\
  trace (captureLoop env0 (page capturing)) =
    [SocketEmit (process_frame "data:image/jpeg;base64,AA"); SetTimeout 1 1000] /\
  WS.captureFrame envNotReady (WS.set_videoElement true (ws (page capturing))) =
    (Ok tt, WS.set_videoElement true (ws (page capturing)),
     [SocketEmit (process_frame "data:image/jpeg;base64,AA")]) /\
  intervals (trace (WS.startFrameCapture env0 1 (ws (page capturing)))) =
    [(1, 1000)].
Proof.
  split; [|split; [|split]].
  - exact (proj1 (proj2 (proj2 (proj1 (capture_ticks envNotReady)
             (page capturing) eq_refl)))
             ltac:(discriminate)).
  - exact (proj2 (proj2 (proj2 (proj2 (proj2 (proj2 (proj1 (capture_ticks env0)
             (page capturing) eq_refl))) eq_refl))
             "data:image/jpeg;base64,AA" eq_refl eq_refl eq_refl)).
  - exact (proj1 (proj2 (proj2 (proj2 (proj2
             (proj1 (proj2 (capture_ticks envNotReady))
                (WS.set_videoElement true (ws (page capturing))) eq_refl eq_refl)))))
             "data:image/jpeg;base64,AA" eq_refl eq_refl eq_refl).
  - exact (proj1 (proj1 (proj2 (proj2 (proj2 (capture_ticks env0)) 1
             (ws (page capturing)))) tt eq_refl)).
Defined.

(** *** Structural proofs over the handlers *)

Ltac head_of t :=
  lazymatch t with
  | ?f _ => head_of f
  | _ => t
  end.

(** One rule per construct of a handler; a named handler is unfolded. *)
Ltac silent_rules :=
  repeat
    lazymatch goal with
    | |- forall _, _ => intro
    | |- silent _ ((fun _ => _) _) => cbv beta
    | |- silent _ (bind _ _) => apply silent_bind
    | |- silent _ (try_catch _ _) => apply silent_try_catch
    | |- silent _ (ret _) => apply silent_ret
    | |- silent _ (throw _) => apply silent_throw
    | |- silent _ get => apply silent_get
    | |- silent _ (gets _) => apply silent_gets
    | |- silent _ (modify _) => apply silent_modify
    | |- silent _ (attempt _) => apply silent_attempt
    | |- silent _ (result _) => apply silent_result
    | |- silent _ (zoom _ _ _) => apply silent_zoom
    | |- silent _ (when _ _) => apply silent_when
    | |- silent _ (forEach _ _) => apply silent_forEach
    | |- silent _ (call _) => apply silent_call; reflexivity
    | |- silent _ (match ?x with _ => _ end) => destruct x
    | |- silent _ ?m => let h := head_of m in unfold h
    end.

Lemma keeps_onService (R : Slice.BackgroundSelectionState -> Prop)
    {A} (m : M WS.WebSocketService A) :
  keeps (fun s => R (store s)) (onService m).
Proof.
  apply (keeps_zoom _ (fun _ => True) ws set_ws).
  - auto.
  - intros s t H _. exact H.
  - apply keeps_any_true.
Qed.

Lemma keeps_onPage (Q : PageState -> Prop) {A} (m : M PageState A) :
  keeps Q m -> keeps (fun r => Q (page r)) (onPage m).
Proof.
  intros H. apply (keeps_zoom _ Q page set_page).
  - auto.
  - intros r t _ Ht. exact Ht.
  - exact H.
Qed.

(** A state change that leaves the saved artifact in place, or puts a
    new one. *)
Ltac saved_side :=
  let s := fresh "s" in
  let H := fresh "H" in
  intros s H; first [exact H | unfold hasSaved; cbn; discriminate].

Ltac keeps_saved_rules :=
  repeat
    lazymatch goal with
    | |- forall _, _ => intro
    | |- keeps _ ((fun _ => _) _) => cbv beta
    | |- keeps _ (bind _ _) => apply keeps_bind
    | |- keeps _ (try_catch _ _) => apply keeps_try_catch
    | |- keeps _ (ret _) => apply keeps_ret
    | |- keeps _ (throw _) => apply keeps_throw
    | |- keeps _ get => apply keeps_get
    | |- keeps _ (gets _) => apply keeps_gets
    | |- keeps _ (call _) => apply keeps_call
    | |- keeps _ (attempt _) => apply keeps_attempt
    | |- keeps _ (result _) => apply keeps_result
    | |- keeps _ (when _ _) => apply keeps_when
    | |- keeps _ (forEach _ _) => apply keeps_forEach
    | |- keeps _ (modify _) => apply keeps_modify; saved_side
    | |- keeps _ (onService _) =>
        apply (keeps_onService (fun st => Slice.savedBackground st <> None))
    | |- keeps _ (onPage _) => apply (keeps_onPage hasSaved)
    | |- keeps _ (match ?x with _ => _ end) => destruct x
    | |- keeps _ ?m => let h := head_of m in unfold h
    end.

Lemma handle_keeps_saved (env : Env) (e : Event) :
  e <> ClickRedo -> keeps (fun r => hasSaved (page r)) (handle env e).
Proof.
  intros He. destruct e; try (now elim He); keeps_saved_rules.
Qed.

Lemma commit_keeps_saved (env : Env) :
  keeps (fun r => hasSaved (page r)) (commit env).
Proof. keeps_saved_rules. Qed.

(** *** Redo *)

Ltac redone_side :=
  let s := fresh "s" in
  let H := fresh "H" in
  intros s H; exact H.

Ltac keeps_redone_rules :=
  repeat
    lazymatch goal with
    | |- forall _, _ => intro
    | |- keeps _ ((fun _ => _) _) => cbv beta
    | |- keeps _ (bind _ _) => apply keeps_bind
    | |- keeps _ (ret _) => apply keeps_ret
    | |- keeps _ (gets _) => apply keeps_gets
    | |- keeps _ (call _) => apply keeps_call
    | |- keeps _ (when _ _) => apply keeps_when
    | |- keeps _ (modify _) => apply keeps_modify; redone_side
    | |- keeps _ (match ?x with _ => _ end) => destruct x
    | |- keeps _ ?m => let h := head_of m in unfold h
    end.

(** From here on [redone] is maintained. *)
Ltac redone_tail :=
  cbv beta;
  eapply triple_weaken with (P' := redone) (Q' := fun _ => redone)
    (E' := fun _ => redone);
  [ lazymatch goal with
    | |- triple redone ?m _ _ => change (keeps redone m)
    end; keeps_redone_rules
  | redone_side | auto | auto ].

(** A state change in front of the point where [redone] holds. *)
Ltac redone_back tac :=
  cbv beta; eapply triple_modify_then; [ tac | redone_side ].

(** The reset that both the [try] block and the [catch] block of
    [handleRedoBackground] perform establishes [redone] whatever the
    state was, and what follows the reset maintains it. *)
Lemma handleRedoBackground_redone (env : Env) :
  triple (fun _ => True) (handleRedoBackground env)
    (fun _ => redone) (fun _ => redone).
Proof.
  unfold handleRedoBackground.
  apply (triple_bind _ _ _ (fun _ _ => True));
    [apply triple_get; intros s _; exact I|]. intros s0.
  apply (triple_bind _ _ _ (fun _ _ => True));
    [apply triple_modify; intros s _; exact I|]. intros _.
  apply (triple_try_catch _ _ _ (fun _ _ => True)).
  - apply (triple_bind _ _ _ (fun _ _ => True)); [apply triple_any|]. intros _.
    apply (triple_bind _ _ _ (fun _ _ => True)); [apply triple_any|]. intros c.
    apply (triple_bind _ _ _ (fun _ _ => True)); [apply triple_any|]. intros _.
    unfold dispatch.
    eapply triple_modify_then;
      [ redone_back ltac:(redone_back ltac:(redone_back ltac:(redone_tail)))
      | intros s _; unfold redone; cbn; repeat split ].
  - intros error. unfold dispatch, addLog.
    eapply triple_modify_then;
      [ redone_back ltac:(redone_back ltac:(redone_back
          ltac:(redone_back ltac:(redone_tail))))
      | intros s _; unfold redone; cbn; repeat split ].
Qed.

(** C5: for every state, and whether or not a step of the handler
    throws, redo leaves the store without saved artifact, without
    session identifier, not active, with no current frame, processing
    flags and [hasBackground] false, the status ["Not started"], and
    the page's frame counter and rate at 0; and redo is the only event
    of the page that takes the saved artifact away: after any other
    event (user request, server event, timer, transport event, mount or
    navigation) a saved artifact is still there.  (The slice also
    exports [resetAll], which would clear it; no component dispatches
    that action.) *)
Theorem redo_resets_and_alone_destroys :
  (forall env s, redone (final (handleRedoBackground env s))) /\
  (forall env r e,
     hasSaved (page r) -> e <> ClickRedo ->
     hasSaved (page (fst (step env r e)))).
Proof.
  split.
  - intros env s.
    pose proof (handleRedoBackground_redone env s I) as H.
    destruct (outcome (handleRedoBackground env s)); exact H.
  - intros env r e Hs He. unfold step. cbn [fst].
    match goal with
    | |- hasSaved (page (set_timers _ (final (?m ?r0)))) =>
        change (hasSaved (page (final (m r0))));
        apply (keeps_final (fun x => hasSaved (page x)) m r0)
    end.
    + apply keeps_bind;
        [apply keeps_try_catch;
           [apply handle_keeps_saved; exact He | intros t; apply keeps_ret]|].
      intros _. apply keeps_bind; [apply keeps_gets|].
      intros m. apply keeps_when. apply commit_keeps_saved.
    + destruct e; exact Hs.
Qed.

(** After the save: proceeding keeps the artifact, redo resets. *)
Lemma redo_scenario :
  redone (final (handleRedoBackground env0 (page saved))) /\
  hasSaved (page (fst (step env0 saved ClickProceed))).
Proof.
  split.
  - exact (proj1 redo_resets_and_alone_destroys env0 (page saved)).
  - exact (proj2 redo_resets_and_alone_destroys env0 saved ClickProceed
             ltac:(discriminate) ltac:(discriminate)).
Defined.

(** *** Teardown *)




(** Navigating away during capture: the cleanup that runs is the closure
    made by the first render, in which [localStream] was [null], so the
    tick is cancelled, the service notified and the link closed, and the
    camera track is left running. *)
Lemma navigation_away_leaves_tracks :
  enabled capturing NavigateAway = true /\
  localStream (page capturing) = Some [7] /\
  teardown (snd (step env0 capturing NavigateAway)) =
    [CancelLoop; NotifyEnd; CloseLink].
Proof. repeat split. Qed.


(** *** Frames and the session *)

(** The sample states are states of real runs, every event of which was
    deliverable when it came. *)
Lemma sample_states_reached :
  allEnabled boot startRun = true /\
  fst (steps boot startRun) = awaitingSession /\
  allEnabled awaitingSession
    [ (env0, SessionWaitElapsed);
      (env0, Server (sv_session_started (Slice.mkSessionStarted "s1"))) ] = true /\
  allEnabled capturing
    [ (env0, Server (sv_frame_processed
                       (Slice.mkFrameProcessed "img" 1 "ok" true)));
      (env0, ClickSave);
      (env0, Server (sv_background_saved
                       (Slice.mkBackgroundSaved "saved" "bg" "s1" None))) ] = true.
Proof. repeat split; vm_compute; reflexivity. Qed.

Lemma captureLoop_emits (env : Env) (s : PageState) (frame : string) :
  loopGuard s = true ->
  readyState env = HAVE_ENOUGH_DATA ->
  getContext2d env = true ->
  drawImage env = None ->
  toDataURL env = Ok frame ->
  captureLoop env s =
  (Ok tt, set_captureIntervalRef (Some (timerHandle env)) s,
   [SocketEmit (process_frame frame); SetTimeout (timerHandle env) 1000]).
Proof.
  intros Hg Hr Hc Hd He. apply loopGuard_true in Hg. destruct Hg as (H1 & H2 & H3).
  destruct s as [st w ic ls fc fp lg iuv vr cir icr].
  destruct w as [[[id c]|] fi ve]; cbn in H1, H2, H3; try discriminate H3.
  destruct vr as [vid|]; try discriminate H2. subst icr c.
  destruct env as [th rs gc di td ts now mf]. cbn in Hr, Hc, Hd, He. subst.
  reflexivity.
Qed.

Lemma captureLoop_keeps_guard (env : Env) (s : PageState) :
  loopGuard (final (captureLoop env s)) = loopGuard s.
Proof.
  destruct (loopGuard s) eqn:Hg.
  - apply loopGuard_true in Hg. destruct Hg as (H1 & H2 & H3).
    destruct s as [st w ic ls fc fp lg iuv vr cir icr].
    destruct w as [[[id c]|] fi ve]; cbn in H1, H2, H3; try discriminate H3.
    destruct vr as [vid|]; try discriminate H2. subst icr c.
    destruct env as [th rs gc di td ts now mf].
    unfold captureLoop. run_handler.
    destruct (Nat.eqb rs 4); [|reflexivity].
    destruct gc, di, td; reflexivity.
  - rewrite (captureLoop_outside_guard env s Hg). exact Hg.
Qed.

Lemma handle_emits_no_frame (env : Env) (e : Event) :
  (forall h, e <> Tick h) -> silent isFrameEmit (handle env e).
Proof.
  intros He. destruct e; try (now elim (He h)); silent_rules.
Qed.

(** C1: the code at the input where it departs from the claim.  The
    operator starts the camera on a live link, and every event is
    deliverable.  [startCapture] requests the session and then sleeps
    500 ms, a sleep the source comments "Wait for session to start"
    (lines 259-263; the same in [handleVideoUpload], lines 333-337).
    When the sleep ends before [session_started] has arrived, the
    capture loop starts and emits a frame while the session is not
    active.  When [session_started] arrives within the 500 ms, the
    frame of the same first tick is emitted in the active session. *)
Theorem frame_emitted_before_session_started :
  allEnabled boot (startRun ++ [(env0, SessionWaitElapsed)]) = true /\
  Slice.isSessionActive (store (page awaitingSession)) = false /\
  frames (snd (step env0 awaitingSession SessionWaitElapsed)) =
    ["data:image/jpeg;base64,AA"] /\
  ~ framesInSession env0 awaitingSession SessionWaitElapsed /\
  (let r := fst (step env0 awaitingSession
                   (Server (sv_session_started (Slice.mkSessionStarted "s1")))) in
   allEnabled awaitingSession
     [ (env0, Server (sv_session_started (Slice.mkSessionStarted "s1")));
       (env0, SessionWaitElapsed) ] = true /\
   frames (snd (step env0 r SessionWaitElapsed)) = ["data:image/jpeg;base64,AA"] /\
   framesInSession env0 r SessionWaitElapsed).
Proof.
  split; [vm_compute; reflexivity|].
  split; [reflexivity|].
  split; [vm_compute; reflexivity|].
  split.
  - unfold framesInSession. intros H.
    assert (Hf : frames (snd (step env0 awaitingSession SessionWaitElapsed)) <> [])
      by (vm_compute; discriminate).
    specialize (H Hf). vm_compute in H. discriminate H.
  - intros r. split; [vm_compute; reflexivity|].
    split; [vm_compute; reflexivity|].
    unfold framesInSession. intros _. vm_compute. reflexivity.
Qed.

(** What the capture loop itself checks before it emits: the capturing
    flag [isCapturingRef], the video element and the transport socket
    being connected, which still hold when the tick ends; the store is
    not read.  No handler of another event emits a frame. *)
Lemma captureLoop_emission_guard :
  (forall env s,
     frames (trace (captureLoop env s)) <> [] ->
     isCapturingRef s = true /\ isSome (videoRef s) = true /\
     WS.isConnected (ws s) = true /\
     loopGuard (final (captureLoop env s)) = true) /\
  (forall env s frame,
     loopGuard s = true ->
     readyState env = HAVE_ENOUGH_DATA ->
     getContext2d env = true ->
     drawImage env = None ->
     toDataURL env = Ok frame ->
     frames (trace (captureLoop env s)) = [frame]) /\
  (forall env e r,
     (forall h, e <> Tick h) -> frames (trace (handle env e r)) = []).
Proof.
  split; [|split].
  - intros env s Hf.
    destruct (loopGuard s) eqn:Hg.
    + rewrite captureLoop_keeps_guard, Hg.
      destruct (loopGuard_true s Hg) as (H1 & H2 & H3). auto.
    + rewrite (captureLoop_outside_guard env s Hg) in Hf. now elim Hf.
  - intros env s frame Hg Hr Hc Hd He.
    rewrite (captureLoop_emits env s frame Hg Hr Hc Hd He). reflexivity.
  - intros env e r He.
    pose proof (handle_emits_no_frame env e He r) as H.
    induction (trace (handle env e r)) as [|x l IH]; [reflexivity|].
    cbn in H. apply andb_true_iff in H. destruct H as [Hx Hl].
    destruct x; try exact (IH Hl).
    destruct e0; try exact (IH Hl). discriminate Hx.
Qed.

(** The first tick of the run above: guard true, session not active. *)
Lemma captureLoop_emission_scenario :
  let s := page (fst (step env0 awaitingSession SessionWaitElapsed)) in
  Slice.isSessionActive (store s) = false /\
  frames (trace (captureLoop env0 s)) = ["data:image/jpeg;base64,AA"] /\
  WS.isConnected (ws s) = true /\
  frames (trace (handle env0 ClickStop capturing)) = [].
Proof.
  intros s. split; [reflexivity|]. split; [|split].
  - exact (proj1 (proj2 captureLoop_emission_guard) env0 s
             "data:image/jpeg;base64,AA" eq_refl eq_refl eq_refl eq_refl eq_refl).
  - exact (proj1 (proj2 (proj2 (proj1 captureLoop_emission_guard env0 s
             ltac:(vm_compute; discriminate))))).
  - exact (proj2 (proj2 captureLoop_emission_guard) env0 ClickStop capturing
             ltac:(discriminate)).
Defined.

End PageProperties.

(* ===================================================================== *)
(** ** Further properties of the slice *)
(* ===================================================================== *)

Section SliceFurther.
Import Slice.

(** X1: in every state the store can reach, under any sequence of
    actions, an active session has started processing, a session that
    has started processing has an identifier, and a store that is
    processing or reports a background holds a current frame. *)
Theorem reachable_sliceInvariant (s : BackgroundSelectionState) :
  reachable s -> sliceInvariant s.
Proof.
  induction 1 as [|s a _ IH].
  - unfold sliceInvariant. cbn. repeat split; intros H; discriminate H.
  - destruct IH as (H1 & H2 & H3 & H4).
    destruct a; unfold sliceInvariant; cbn;
      repeat split; intros H; try discriminate; auto.
Qed.

(** A session started, two frames processed, then the link closed. *)
Lemma reachable_sliceInvariant_scenario :
  sliceInvariant
    (dispatchAll initialState
       [ A_handleSessionStarted (mkSessionStarted "s1");
         A_handleFrameProcessed (mkFrameProcessed "img" 1 "ok" false);
         A_handleFrameProcessed (mkFrameProcessed "img" 2 "ok" true);
         A_handleDisconnected ]).
Proof.
  apply reachable_sliceInvariant.
  cbn [dispatchAll fold_left].
  do 4 apply reach_step. apply reach_init.
Defined.

(** X2: the two resets of a redo commute, and together they put every
    field at its initial value except [inputMode], [selectedFileName],
    [isLoading] and [connectionStatus], which stay as they were; doing
    them again changes nothing. *)
Theorem redo_resets_compose (s : BackgroundSelectionState) :
  resetSession (clearSavedBackground s) = clearSavedBackground (resetSession s) /\
  resetSession (clearSavedBackground s) =
    mkState (inputMode s) (selectedFileName s) None false None None false
      (isLoading s) None None false (connectionStatus s) "Not started" false /\
  resetSession (clearSavedBackground (resetSession (clearSavedBackground s))) =
    resetSession (clearSavedBackground s) /\
  (resetSession (clearSavedBackground s) = resetAll s <->
   inputMode s = None /\ selectedFileName s = None /\
   isLoading s = false /\ connectionStatus s = Disconnected).
Proof.
  destruct s as [im fn sid act cf sb pr ld er su hs cs ps hb].
  split; [cbv; reflexivity|]. split; [cbv; reflexivity|].
  split; [cbv; reflexivity|].
  cbv. split.
  - intros H. injection H as E1 E2 E3 E4. auto.
  - intros (E1 & E2 & E3 & E4). subst. reflexivity.
Qed.

(** X3: a server error does not end the session: it changes only
    [error], [isLoading] and [processingStatus]; and an error followed
    by a processed frame leaves the store as the frame alone would,
    except that [isLoading] is false. *)
Theorem error_is_recoverable (e : MessagePayload) (p : FrameProcessedPayload)
    (s : BackgroundSelectionState) :
  handleWebSocketError e s =
    mkState (inputMode s) (selectedFileName s) (sessionId s) (isSessionActive s)
      (currentFrame s) (savedBackground s) (isProcessing s) false
      (Some (message e)) (success s) (hasStartedProcessing s)
      (connectionStatus s) "Error occurred" (hasBackground s) /\
  handleFrameProcessed p (handleWebSocketError e s) =
    set_isLoading false (handleFrameProcessed p s).
Proof.
  destruct s as [im fn sid act cf sb pr ld er su hs cs ps hb].
  split; reflexivity.
Qed.

End SliceFurther.

(* ===================================================================== *)
(** ** Further properties of the transport connector *)
(* ===================================================================== *)

Section ConnectorFurther.
Import WS.

Lemma connect_run (w : WebSocketService) :
  connect w =
  if isConnected w then (Ok true, w, [])
  else (Ok false, set_socket (Some (mkSocket None false)) w,
        [SocketCreate; SocketOn "connect"; SocketOn "connect_error";
         SocketOn "disconnect"]).
Proof.
  destruct w as [[[id [|]]|] fi v]; reflexivity.
Qed.

(** X4: a request made while the link is not up is dropped, not queued:
    the service is left as it was, only a console error is made, and
    when the link then comes up and another request is made, only that
    one is put on the wire. *)
Theorem requests_are_not_queued (w : WebSocketService) (e e' : ClientEvent)
    (id : string) :
  isConnected w = false ->
  emit e w = (Ok tt, w, [ConsoleError "Socket not connected"]) /\
  (socket w <> None ->
   wire (trace (bind (emit e) (fun _ => bind (on_connect id) (fun _ => emit e')) w))
   = [e']).
Proof.
  intros H. split.
  - rewrite emit_run, H. reflexivity.
  - destruct w as [[[i [|]]|] fi v]; cbn in H; try discriminate H.
    + intros _. reflexivity.
    + intros Hs. now elim Hs.
Qed.

(** The start request made while the first connection is pending. *)
Lemma requests_are_not_queued_scenario :
  let w := final (connect wsService) in
  wire (trace (bind (startSession Slice.camera)
                 (fun _ => bind (on_connect "sock1")
                 (fun _ => saveBackground)) w)) = [save_background].
Proof.
  intros w.
  exact (proj2 (requests_are_not_queued w (start_session Slice.camera)
                  save_background "sock1" eq_refl) ltac:(discriminate)).
Defined.

(** X5: [connect()] made while the link is up changes nothing, makes no
    call and resolves at once.  Made while the link is not up -- also
    while an earlier attempt is pending -- it replaces the socket by a
    new, unconnected one with the three listeners, and does not close
    the socket it replaces; so two calls in a row create two sockets. *)
Theorem connect_spec (w : WebSocketService) :
  (isConnected w = true -> connect w = (Ok true, w, [])) /\
  (isConnected w = false ->
   outcome (connect w) = Ok false /\
   socket (final (connect w)) = Some (mkSocket None false) /\
   frameInterval (final (connect w)) = frameInterval w /\
   trace (connect w) =
     [SocketCreate; SocketOn "connect"; SocketOn "connect_error";
      SocketOn "disconnect"] /\
   trace (bind connect (fun _ => connect) w) =
     trace (connect w) ++ trace (connect w)).
Proof.
  split; intros H.
  - rewrite connect_run, H. reflexivity.
  - destruct w as [[[id [|]]|] fi v]; cbn in H; try discriminate H;
      repeat split.
Qed.

(** [connect()] on the fresh service, and on the live one. *)
Lemma connect_scenario :
  trace (connect wsService) =
    [SocketCreate; SocketOn "connect"; SocketOn "connect_error";
     SocketOn "disconnect"] /\
  connect (Page.ws (Page.page capturing)) =
    (Ok true, Page.ws (Page.page capturing), []).
Proof.
  split.
  - exact (proj1 (proj2 (proj2 (proj2 (proj2 (connect_spec wsService) eq_refl))))).
  - exact (proj1 (connect_spec (Page.ws (Page.page capturing))) eq_refl).
Defined.

(** X6: [startFrameCapture] never leaves two intervals running.  When it
    returns, a capture interval pending before was cleared first, the
    first capture made no interval call, exactly one interval was set,
    at 1000 / fps ms, and it is the one recorded; when the first draw
    throws, it throws and no interval is set or recorded.  On a link
    that is not up it sends nothing, and the interval it sets is cleared
    by that interval's first tick. *)
Theorem startFrameCapture_spec (env : Env) (fps : nat) (w : WebSocketService) :
  let first := captureFrame env (mkService (socket w) None true) in
  (forall a, outcome (startFrameCapture env fps w) = Ok a ->
     frameInterval (final (startFrameCapture env fps w)) = Some (timerHandle env) /\
     trace (startFrameCapture env fps w) =
       intervalCalls w ++ trace first ++
       [SetInterval (timerHandle env) (1000 / fps)] /\
     forallb (fun e => match e with
                       | SetInterval _ _ | ClearInterval _ => false
                       | _ => true
                       end) (trace first) = true) /\
  (forall t, outcome (startFrameCapture env fps w) = Throw t ->
     drawImage env = Some t /\
     frameInterval (final (startFrameCapture env fps w)) = None /\
     trace (startFrameCapture env fps w) = intervalCalls w) /\
  (isConnected w = false ->
   wire (trace (startFrameCapture env fps w)) = [] /\
   forall env',
     captureFrame env' (final (startFrameCapture env fps w)) =
     (Ok tt, mkService (socket w) None false, [ClearInterval (timerHandle env)])).
Proof.
  destruct env as [th rs gc di td ts now mf].
  destruct w as [k fi v].
  assert (Hc : k = None \/ (exists id, k = Some (mkSocket id false)) \/
               (exists id, k = Some (mkSocket id true))).
  { destruct k as [[id [|]]|]; eauto. }
  intros first. subst first.
  destruct Hc as [->|[[id ->]|[id ->]]].
  - (* no socket *)
    destruct fi;
      (split; [intros a H; repeat split
              |split; [intros t H; discriminate H
                      |intros H; split; [reflexivity|intros env'; reflexivity]]]).
  - (* a socket that is not connected *)
    destruct fi;
      (split; [intros a H; repeat split
              |split; [intros t H; discriminate H
                      |intros H; split; [reflexivity|intros env'; reflexivity]]]).
  - (* the link is up *)
    destruct fi;
      (split; [intros a H; destruct gc, di as [t1|], td as [f|t2];
                 try discriminate H; repeat split
              |split; [intros t H; destruct gc, di as [t1|], td as [f|t2];
                         try discriminate H; injection H as <-; repeat split
                      |intros H; discriminate H]]).
Qed.

(** Starting the capture of the service on the live link of session
    ["s1"], and on the fresh service. *)
Lemma startFrameCapture_scenario :
  trace (startFrameCapture env0 1 (Page.ws (Page.page capturing))) =
    [SocketEmit (process_frame "data:image/jpeg;base64,AA"); SetInterval 1 1000] /\
  trace (startFrameCapture envDrawFails 1 (Page.ws (Page.page capturing))) = [] /\
  captureFrame env0 (final (startFrameCapture env0 1 wsService)) =
    (Ok tt, wsService, [ClearInterval 1]).
Proof.
  split; [|split].
  - exact (proj1 (proj2 (proj1 (startFrameCapture_spec env0 1
             (Page.ws (Page.page capturing))) tt eq_refl))).
  - exact (proj2 (proj2 (proj1 (proj2 (startFrameCapture_spec envDrawFails 1
             (Page.ws (Page.page capturing))))
             (ThrownError "InvalidStateError") eq_refl))).
  - exact (proj2 (proj2 (proj2 (startFrameCapture_spec env0 1 wsService))
             eq_refl) env0).
Defined.

End ConnectorFurther.

(* ===================================================================== *)
(** ** Reasoning about quiet runs *)
(* ===================================================================== *)

Section QuietRuns.
Context {S : Type}.
Variable P : S -> Prop.
Variable X : Effect -> bool.

Lemma quiet_ret {A} (a : A) : quiet P X (ret a).
Proof. intros s Hs. split; [reflexivity|exact Hs]. Qed.

Lemma quiet_throw {A} (t : Thrown) : quiet P X (@throw S A t).
Proof. intros s Hs. split; [reflexivity|exact Hs]. Qed.

Lemma quiet_get : quiet P X get.
Proof. intros s Hs. split; [reflexivity|exact Hs]. Qed.

Lemma quiet_gets {A} (f : S -> A) : quiet P X (gets f).
Proof. intros s Hs. split; [reflexivity|exact Hs]. Qed.

Lemma quiet_modify (f : S -> S) :
  (forall s, P s -> P (f s)) -> quiet P X (modify f).
Proof. intros H s Hs. split; [reflexivity|exact (H s Hs)]. Qed.

Lemma quiet_call (e : Effect) : X e = false -> quiet P X (call e).
Proof. intros H s Hs. split; [cbn; rewrite H; reflexivity|exact Hs]. Qed.

Lemma quiet_attempt (o : option Thrown) : quiet P X (attempt o).
Proof. destruct o; [apply quiet_throw | apply quiet_ret]. Qed.

Lemma quiet_result {A} (o : Outcome A) : quiet P X (result o).
Proof. destruct o; [apply quiet_ret | apply quiet_throw]. Qed.

Lemma quiet_bind {A B} (m : M S A) (f : A -> M S B) :
  quiet P X m -> (forall a, quiet P X (f a)) -> quiet P X (bind m f).
Proof.
  intros Hm Hf s Hs. destruct (Hm s Hs) as [Ht Hp].
  destruct (outcome (m s)) as [a|t] eqn:Ho.
  - rewrite (bind_ok m f s a Ho). cbn.
    destruct (Hf a _ Hp) as [Ht' Hp'].
    split; [apply forallb_app_true; assumption|exact Hp'].
  - rewrite (bind_throw m f s t Ho). cbn. split; assumption.
Qed.

Lemma quiet_try_catch {A} (m : M S A) (h : Thrown -> M S A) :
  quiet P X m -> (forall t, quiet P X (h t)) -> quiet P X (try_catch m h).
Proof.
  intros Hm Hh s Hs. destruct (Hm s Hs) as [Ht Hp].
  destruct (outcome (m s)) as [a|t] eqn:Ho.
  - rewrite (try_catch_ok m h s a Ho). split; assumption.
  - rewrite (try_catch_throw m h s t Ho). cbn.
    destruct (Hh t _ Hp) as [Ht' Hp'].
    split; [apply forallb_app_true; assumption|exact Hp'].
Qed.

Lemma quiet_when (b : bool) (m : M S unit) :
  quiet P X m -> quiet P X (when b m).
Proof. intros H. destruct b; [exact H | apply quiet_ret]. Qed.

Lemma quiet_forEach {A} (l : list A) (f : A -> M S unit) :
  (forall a, quiet P X (f a)) -> quiet P X (forEach l f).
Proof.
  intros H. induction l as [|a l IH]; cbn.
  - apply quiet_ret.
  - apply quiet_bind; [apply H | intros _; exact IH].
Qed.

End QuietRuns.

Lemma quiet_zoom {S T A} (P : S -> Prop) (Q : T -> Prop) X
    (proj : S -> T) (upd : T -> S -> S) (m : M T A) :
  (forall s, P s -> Q (proj s)) ->
  (forall s t, P s -> Q t -> P (upd t s)) ->
  quiet Q X m -> quiet P X (zoom proj upd m).
Proof.
  intros H1 H2 Hm s Hs. destruct (Hm (proj s) (H1 s Hs)) as [Ht Hq].
  unfold zoom, trace, final in *.
  destruct (m (proj s)) as [[o t] e]; cbn in *.
  split; [exact Ht | apply H2; assumption].
Qed.

Lemma quiet_wire_nil {S A} (P : S -> Prop) (m : M S A) s :
  quiet P isSocketEmit m -> P s -> wire (trace (m s)) = [] /\ P (final (m s)).
Proof.
  intros Hm Hs. destruct (Hm s Hs) as [Ht Hp]. split; [|exact Hp].
  induction (trace (m s)) as [|e l IH]; [reflexivity|].
  cbn in Ht. apply andb_true_iff in Ht. destruct Ht as [He Hl].
  destruct e; try discriminate He; exact (IH Hl).
Qed.

(* ===================================================================== *)
(** ** Further properties of the page *)
(* ===================================================================== *)

Section PageFurther.
Import Page.

Ltac head_sym t :=
  lazymatch t with
  | ?f _ => head_sym f
  | _ => t
  end.

(** Evaluation of a handler up to the loop over the tracks. *)
Ltac run_page :=
  cbv -[forEach stopTrack app teardown wire frames timeouts map
        String.prefix Nat.eqb].

(** A method of the service, run from a state in which a property of
    the socket holds: every case of the service is examined. *)
Ltac service_leaf :=
  let w := fresh "w" in
  let H := fresh "H" in
  intros w H;
  destruct w as [[[? []]|] [?|] ?];
  cbv in H; try discriminate H; split; reflexivity.

Ltac quiet_side :=
  let s := fresh "s" in
  let H := fresh "H" in
  intros s H; exact H.

(** One rule per construct of a handler, for a property [Pw] of the
    service seen from the page ([Ps]) and from the runtime ([Pr]). *)
Ltac quiet_rules Pw Ps Pr :=
  repeat
    lazymatch goal with
    | |- forall _, _ => intro
    | |- quiet _ _ ((fun _ => _) _) => cbv beta
    | |- quiet _ _ (bind _ _) => apply quiet_bind
    | |- quiet _ _ (try_catch _ _) => apply quiet_try_catch
    | |- quiet _ _ (ret _) => apply quiet_ret
    | |- quiet _ _ (throw _) => apply quiet_throw
    | |- quiet _ _ get => apply quiet_get
    | |- quiet _ _ (gets _) => apply quiet_gets
    | |- quiet _ _ (attempt _) => apply quiet_attempt
    | |- quiet _ _ (result _) => apply quiet_result
    | |- quiet _ _ (when _ _) => apply quiet_when
    | |- quiet _ _ (forEach _ _) => apply quiet_forEach
    | |- quiet _ _ (call _) => apply quiet_call; reflexivity
    | |- quiet _ _ (modify _) => apply quiet_modify; quiet_side
    | |- quiet _ ?X (onService _) =>
        apply (quiet_zoom Ps Pw X ws set_ws);
        [ quiet_side | intros ? ? _ ?; assumption | service_leaf ]
    | |- quiet _ ?X (onPage _) =>
        apply (quiet_zoom Pr Ps X page set_page);
        [ quiet_side | intros ? ? _ ?; assumption | ]
    | |- quiet _ _ (match ?x with _ => _ end) => destruct x
    | |- quiet _ _ ?m => let h := head_sym m in unfold h
    end.

Lemma step_quiet (P : Runtime -> Prop) (env : Env) (r : Runtime) (e : Event) :
  (forall x ts, P x -> P (set_timers ts x)) ->
  quiet P isSocketEmit (handle env e) ->
  quiet P isSocketEmit (commit env) ->
  P r ->
  wire (snd (step env r e)) = [] /\ P (fst (step env r e)).
Proof.
  intros Ht Hh Hc Hr. unfold step. cbn [fst snd].
  match goal with
  | |- wire (trace (?m ?r0)) = [] /\ _ =>
      assert (Hq : quiet P isSocketEmit m);
      [ apply quiet_bind;
          [apply quiet_try_catch; [exact Hh | intros t; apply quiet_ret]|];
        intros _;
        apply quiet_bind; [apply quiet_gets|]; intros b;
        apply quiet_when; exact Hc
      | assert (H0 : P r0) by (destruct e; auto);
        destruct (quiet_wire_nil P m r0 Hq H0) as [Hw Hp];
        split; [exact Hw | apply Ht; exact Hp] ]
  end.
Qed.

Lemma handle_quiet_socketless (env : Env) (e : Event) :
  e <> Mount ->
  quiet (fun r => socketless (ws (page r))) isSocketEmit (handle env e).
Proof.
  intros He. destruct e; try (now elim He);
    quiet_rules socketless (fun s : PageState => socketless (ws s))
                (fun r : Runtime => socketless (ws (page r))).
Qed.

Lemma commit_quiet_socketless (env : Env) :
  quiet (fun r => socketless (ws (page r))) isSocketEmit (commit env).
Proof.
  quiet_rules socketless (fun s : PageState => socketless (ws s))
              (fun r : Runtime => socketless (ws (page r))).
Qed.

Lemma handle_quiet_linkDown (env : Env) (e : Event) :
  (forall id, e <> SocketConnect id) ->
  quiet (fun r => linkDown (ws (page r))) isSocketEmit (handle env e).
Proof.
  intros He. destruct e; try (now elim (He id));
    quiet_rules linkDown (fun s : PageState => linkDown (ws s))
                (fun r : Runtime => linkDown (ws (page r))).
Qed.

Lemma commit_quiet_linkDown (env : Env) :
  quiet (fun r => linkDown (ws (page r))) isSocketEmit (commit env).
Proof.
  quiet_rules linkDown (fun s : PageState => linkDown (ws s))
              (fun r : Runtime => linkDown (ws (page r))).
Qed.

(** X7: while the link is not up, no event of the page puts anything
    on the wire, and the link stays down unless the event is the socket
    connecting.  Once the service holds no socket (after a redo, after
    proceeding to calibration, after navigating away), no event other
    than a new mount gives it one: nothing is sent and the link cannot
    come back by itself. *)
Theorem link_down_is_silent (env : Env) (r : Runtime) (e : Event) :
  (linkDown (ws (page r)) -> (forall id, e <> SocketConnect id) ->
   wire (snd (step env r e)) = [] /\
   linkDown (ws (page (fst (step env r e))))) /\
  (socketless (ws (page r)) -> e <> Mount ->
   wire (snd (step env r e)) = [] /\
   socketless (ws (page (fst (step env r e))))).
Proof.
  split.
  - intros Hr He.
    apply (step_quiet (fun x => linkDown (ws (page x)))); auto.
    + apply handle_quiet_linkDown; exact He.
    + apply commit_quiet_linkDown.
  - intros Hr He.
    apply (step_quiet (fun x => socketless (ws (page x)))); auto.
    + apply handle_quiet_socketless; exact He.
    + apply commit_quiet_socketless.
Qed.

(** During the outage of session ["s1"] a tick sends nothing; after the
    redo the Start button is enabled and pressing it sends nothing. *)
Lemma link_down_scenario :
  wire (snd (step env0 dropped (Tick 1))) = [] /\
  (enabled afterRedo ClickStart = true /\
   wire (snd (step env0 afterRedo ClickStart)) = [] /\
   socketless (ws (page (fst (step env0 afterRedo ClickStart))))).
Proof.
  split; [|split; [reflexivity|]].
  - exact (proj1 (proj1 (link_down_is_silent env0 dropped (Tick 1)) eq_refl
                    ltac:(discriminate))).
  - exact (proj2 (link_down_is_silent env0 afterRedo ClickStart) eq_refl
             ltac:(discriminate)).
Defined.

(** X8: a redo in which no step throws leaves the link down -- without
    a socket when the link was up -- while the store's
    [connectionStatus] stays what it was, the main view is shown, and
    the Start Camera button is enabled exactly when that status is
    ['connected']. *)
Theorem redo_leaves_link_down (env : Env) (s : PageState) :
  trackStop env = None ->
  let s' := final (handleRedoBackground env s) in
  linkDown (ws s') /\
  (WS.isConnected (ws s) = true -> socketless (ws s')) /\
  Slice.connectionStatus (store s') = Slice.connectionStatus (store s) /\
  mainView s' = true /\
  startDisabled s' = negb (connectedStatus s).
Proof.
  intros Ht s'. subst s'.
  destruct s as [st w ic ls fc fp lg iuv vr cir icr].
  destruct st as [im fn sid act cf sb pr ld er su hs cs ps hb].
  destruct w as [[[id [|]]|] [i|] ve], ls as [stream|], cir,
    vr as [[so sr]|], iuv.
  all: run_page; rewrite ?forEach_tracks, ?Ht; run_page;
    try destruct (String.prefix _ _); run_page.
  all: repeat split; try (intros H; discriminate H); destruct cs; reflexivity.
Qed.

(** The redo after the save of session ["s1"]. *)
Lemma redo_leaves_link_down_scenario :
  socketless (ws (final (handleRedoBackground env0 (page saved)))) /\
  startDisabled (final (handleRedoBackground env0 (page saved))) = false.
Proof.
  pose proof (redo_leaves_link_down env0 (page saved) eq_refl) as H.
  exact (conj (proj1 (proj2 H) eq_refl) (proj2 (proj2 (proj2 (proj2 H))))).
Defined.

(** *** Update *)

(** X9: [handleUpdateBackground] never throws and never changes the
    store or the service.  Without a live link or without the video
    element it only alerts.  Otherwise it sends at most one event, the
    [update_background] carrying the encoded frame, and it sends it
    whenever a context is obtained and drawing and encoding succeed:
    whether a session is active or capture is running is not looked
    at. *)
Theorem handleUpdateBackground_spec (env : Env) (s : PageState) :
  outcome (handleUpdateBackground env s) = Ok tt /\
  store (final (handleUpdateBackground env s)) = store s /\
  ws (final (handleUpdateBackground env s)) = ws s /\
  (WS.isConnected (ws s) = false \/ videoRef s = None ->
   handleUpdateBackground env s = (Ok tt, s, [Alert "Not connected"])) /\
  (wire (trace (handleUpdateBackground env s)) = [] \/
   exists f, toDataURL env = Ok f /\
             wire (trace (handleUpdateBackground env s)) = [update_background f]) /\
  (WS.isConnected (ws s) = true -> videoRef s <> None ->
   getContext2d env = true -> drawImage env = None ->
   forall f, toDataURL env = Ok f ->
   wire (trace (handleUpdateBackground env s)) = [update_background f]).
Proof.
  destruct env as [th rs gc di td ts now mf].
  destruct s as [st w ic ls fc fp lg iuv vr cir icr].
  destruct w as [[[id [|]]|] fi ve], vr as [vid|], gc, di as [t1|], td as [f0|t2].
  all: split; [reflexivity|]; split; [reflexivity|]; split; [reflexivity|].
  all: split; [intros [H|H]; try discriminate H; reflexivity|].
  all: split; [first [left; reflexivity | right; eexists; split; reflexivity]|].
  all: intros Hc Hv Hg Hd f Hf; try discriminate; try (now elim Hv).
  all: injection Hf as <-; reflexivity.
Qed.

(** An update in the session ["s1"], and one after the link dropped. *)
Lemma handleUpdateBackground_scenario :
  wire (trace (handleUpdateBackground env0 (page capturing))) =
    [update_background "data:image/jpeg;base64,AA"] /\
  handleUpdateBackground env0 (page dropped) =
    (Ok tt, page dropped, [Alert "Not connected"]).
Proof.
  split.
  - exact (proj2 (proj2 (proj2 (proj2 (proj2
             (handleUpdateBackground_spec env0 (page capturing))))))
             eq_refl ltac:(discriminate) eq_refl eq_refl
             "data:image/jpeg;base64,AA" eq_refl).
  - exact (proj1 (proj2 (proj2 (proj2
             (handleUpdateBackground_spec env0 (page dropped)))))
             (or_introl eq_refl)).
Defined.

(** *** Save, again *)

Lemma onServerEvent_keeps_loading (env : Env) (ev : ServerEvent) (s : PageState) :
  keepsLoading ev = true ->
  Slice.isLoading (store (final (onServerEvent env ev s))) =
  Slice.isLoading (store s).
Proof.
  destruct ev; intros H; try discriminate H; try reflexivity.
  cbn. destruct (measuredFps env); reflexivity.
Qed.

Lemma deliverAll_keeps_loading (env : Env) (evs : list ServerEvent) (s : PageState) :
  forallb keepsLoading evs = true ->
  Slice.isLoading (store (deliverAll env evs s)) = Slice.isLoading (store s).
Proof.
  revert s. induction evs as [|ev evs IH]; intros s H; [reflexivity|].
  cbn in H. apply andb_true_iff in H. destruct H as [Hev Hevs].
  change (deliverAll env (ev :: evs) s)
    with (deliverAll env evs (final (onServerEvent env ev s))).
  rewrite (IH _ Hevs). apply onServerEvent_keeps_loading. exact Hev.
Qed.

(** X10: a save request cannot be submitted twice.  Once
    [handleSaveBackground] has sent [save_background], the Save button
    is disabled and a click on it sends nothing and changes nothing,
    and this lasts through any number of [connected],
    [frame_processed] and [background_updated] events: only
    [session_started], [background_saved] or [error] end it. *)
Theorem save_not_resubmitted (env : Env) (s : PageState) (evs : list ServerEvent) :
  WS.isConnected (ws s) = true ->
  truthy (Slice.sessionId (store s)) = true ->
  forallb keepsLoading evs = true ->
  let s1 := deliverAll env evs (final (handleSaveBackground s)) in
  saveDisabled s1 = true /\ noOp clickSave s1.
Proof.
  intros Hc Hs Hevs s1.
  assert (Hl : Slice.isLoading (store s1) = true).
  { unfold s1. rewrite (deliverAll_keeps_loading env evs _ Hevs).
    destruct (handleSaveBackground_sends s Hc Hs) as [_ ->]. reflexivity. }
  assert (Hd : saveDisabled s1 = true).
  { unfold saveDisabled. rewrite Hl. apply orb_true_r. }
  split; [exact Hd|].
  unfold noOp, clickSave, bind, get. rewrite Hd.
  cbn [negb]. rewrite andb_false_r. split; reflexivity.
Qed.

(** Two clicks on Save in the session ["s1"], with a frame in between. *)
Lemma save_not_resubmitted_scenario :
  noOp clickSave
    (deliverAll env0
       [sv_frame_processed (Slice.mkFrameProcessed "img" 2 "ok" true)]
       (final (handleSaveBackground (page capturing)))).
Proof.
  exact (proj2 (save_not_resubmitted env0 (page capturing)
                  [sv_frame_processed (Slice.mkFrameProcessed "img" 2 "ok" true)]
                  eq_refl eq_refl eq_refl)).
Defined.

(** *** Stop, transport drop and reconnection *)

Lemma tick_outside_guard (env : Env) (r : Runtime) (h : nat) :
  loopGuard (page r) = false ->
  committedCapturing r = isCapturing (page r) ->
  snd (step env r (Tick h)) = [].
Proof.
  intros Hg Hc.
  destruct r as [[st w ic ls fc fp lg iuv vr cir icr] m cc lc f cp ts].
  cbn in Hg, Hc. subst cc.
  destruct w as [[[id [|]]|] fi v], icr, vr, ic, m;
    try discriminate Hg; reflexivity.
Qed.

Lemma linkDown_loopGuard (s : PageState) :
  linkDown (ws s) -> loopGuard s = false.
Proof.
  unfold linkDown, loopGuard. intros ->. apply andb_false_r.
Qed.



Ltac store_side :=
  let s := fresh "s" in
  let H := fresh "H" in
  intros s H; exact H.

(** One rule per construct of a handler that does not dispatch, for a
    property [R] of the store. *)
Ltac keeps_store_rules R :=
  repeat
    lazymatch goal with
    | |- forall _, _ => intro
    | |- keeps _ ((fun _ => _) _) => cbv beta
    | |- keeps _ (bind _ _) => apply keeps_bind
    | |- keeps _ (try_catch _ _) => apply keeps_try_catch
    | |- keeps _ (ret _) => apply keeps_ret
    | |- keeps _ (throw _) => apply keeps_throw
    | |- keeps _ get => apply keeps_get
    | |- keeps _ (gets _) => apply keeps_gets
    | |- keeps _ (call _) => apply keeps_call
    | |- keeps _ (attempt _) => apply keeps_attempt
    | |- keeps _ (result _) => apply keeps_result
    | |- keeps _ (when _ _) => apply keeps_when
    | |- keeps _ (forEach _ _) => apply keeps_forEach
    | |- keeps _ (modify _) => apply keeps_modify; store_side
    | |- keeps _ (onService _) => apply (keeps_onService R)
    | |- keeps _ (onPage _) =>
        apply (keeps_onPage (fun s : PageState => R (store s)))
    | |- keeps _ (match ?x with _ => _ end) => destruct x
    | |- keeps _ ?m => let h := head_sym m in unfold h
    end.

Lemma commit_keeps_store (env : Env) (R : Slice.BackgroundSelectionState -> Prop) :
  keeps (fun r => R (store (page r))) (commit env).
Proof. keeps_store_rules R. Qed.

Lemma drop_keeps_store (env : Env) (R : Slice.BackgroundSelectionState -> Prop) :
  keeps (fun r => R (store (page r))) (handle env SocketDrop).
Proof. keeps_store_rules R. Qed.

Lemma drop_run (env : Env) (r : Runtime) :
  outcome (handle env SocketDrop r) = Ok tt /\
  linkDown (ws (page (final (handle env SocketDrop r)))).
Proof.
  destruct r as [[st [[[id c]|] [i|] v] ic ls fc fp lg iuv vr cir icr]
                   m cc lc f cp ts]; split; reflexivity.
Qed.

(** X12: a transport drop is not recorded in the store: whatever the
    state, after it the link is down and the store is exactly as it
    was, connection status and session flag included.  While the link
    is down a tick that fires does nothing and schedules no further
    tick, so the capture loop ends there. *)
Theorem transport_drop_halts_capture :
  (forall env r,
     store (page (fst (step env r SocketDrop))) = store (page r) /\
     linkDown (ws (page (fst (step env r SocketDrop))))) /\
  (forall env r h,
     linkDown (ws (page r)) ->
     committedCapturing r = isCapturing (page r) ->
     snd (step env r (Tick h)) = []).
Proof.
  split.
  - intros env r. unfold step. cbn [fst].
    match goal with
    | |- store (page (set_timers _ (final (?m r)))) = _ /\ _ =>
        change (store (page (final (m r))) = store (page r) /\
                linkDown (ws (page (final (m r)))))
    end.
    split.
    + apply (keeps_final (fun x => store (page x) = store (page r))); [|reflexivity].
      apply keeps_bind;
        [apply keeps_try_catch;
           [apply (drop_keeps_store env (fun st => st = store (page r)))
           |intros t; apply keeps_ret]|].
      intros _. apply keeps_bind; [apply keeps_gets|].
      intros b. apply keeps_when.
      apply (commit_keeps_store env (fun st => st = store (page r))).
    + destruct (drop_run env r) as [Ho Hd].
      pose proof (try_catch_ok (handle env SocketDrop) (fun _ => ret tt) r tt Ho)
        as Htc.
      rewrite (bind_ok _ _ r tt); [|rewrite Htc; exact Ho].
      rewrite Htc. cbn [final fst snd].
      match goal with
      | |- linkDown (ws (page (final (?rest ?r1)))) =>
          assert (Hq : quiet (fun x => linkDown (ws (page x))) isSocketEmit rest)
      end.
      { apply quiet_bind; [apply quiet_gets|]. intros b.
        apply quiet_when. apply commit_quiet_linkDown. }
      exact (proj2 (Hq _ Hd)).
  - intros env r h Hd Hc. apply tick_outside_guard; [|exact Hc].
    apply linkDown_loopGuard. exact Hd.
Qed.

(** The tick that follows the drop in session ["s1"]. *)
Lemma transport_drop_scenario :
  Slice.connectionStatus (store (page dropped)) = Slice.Connected /\
  Slice.isSessionActive (store (page dropped)) = true /\
  snd (step env0 dropped (Tick 1)) = [].
Proof.
  split; [reflexivity|]. split; [reflexivity|].
  exact (proj2 transport_drop_halts_capture env0 dropped 1 eq_refl eq_refl).
Defined.

(** X13: once the first connection attempt has settled, the socket
    connecting again is not noticed by the page: with the capture flag
    committed, the event makes no call and leaves the store as it was,
    whatever status the store shows. *)
Theorem reconnect_is_not_recorded (env : Env) (r : Runtime) (id : string) :
  connectPending r = false ->
  committedCapturing r = isCapturing (page r) ->
  snd (step env r (SocketConnect id)) = [] /\
  store (page (fst (step env r (SocketConnect id)))) = store (page r).
Proof.
  intros Hp Hc.
  destruct r as [[st w ic ls fc fp lg iuv vr cir icr] m cc lc f cp ts].
  cbn in Hp, Hc. subst.
  destruct w as [[k|] fi v], ic, m; split; reflexivity.
Qed.

(** The link of session ["s1"] comes back after the drop. *)
Lemma reconnect_scenario :
  snd (step env0 dropped (SocketConnect "sock2")) = [] /\
  store (page (fst (step env0 dropped (SocketConnect "sock2")))) =
  store (page dropped).
Proof.
  exact (reconnect_is_not_recorded env0 dropped "sock2" eq_refl eq_refl).
Defined.

(** *** Start of a session and navigation away *)

Ltac mute_rules :=
  repeat
    lazymatch goal with
    | |- forall _, _ => intro
    | |- silent _ ((fun _ => _) _) => cbv beta
    | |- silent _ (bind _ _) => apply silent_bind
    | |- silent _ (try_catch _ _) => apply silent_try_catch
    | |- silent _ (ret _) => apply silent_ret
    | |- silent _ (throw _) => apply silent_throw
    | |- silent _ get => apply silent_get
    | |- silent _ (gets _) => apply silent_gets
    | |- silent _ (modify _) => apply silent_modify
    | |- silent _ (attempt _) => apply silent_attempt
    | |- silent _ (result _) => apply silent_result
    | |- silent _ (zoom _ _ _) => apply silent_zoom
    | |- silent _ (when _ _) => apply silent_when
    | |- silent _ (forEach _ _) => apply silent_forEach
    | |- silent _ (call _) => apply silent_call; reflexivity
    | |- silent _ (match ?x with _ => _ end) => destruct x
    | |- silent _ ?m => let h := head_sym m in unfold h
    end.

Lemma try_catch_ret_trace {S} (m : M S unit) (s : S) :
  trace (try_catch m (fun _ => ret tt) s) = trace (m s).
Proof.
  unfold try_catch, trace, ret.
  destruct (m s) as [[[a|t] s1] e1]; cbn; [reflexivity|apply app_nil_r].
Qed.

Lemma in_trace_bind {S A B} (m : M S A) (f : A -> M S B) (s : S) (x : Effect) :
  In x (trace (bind m f s)) ->
  In x (trace (m s)) \/ exists a, In x (trace (f a (final (m s)))).
Proof.
  destruct (outcome (m s)) as [a|t] eqn:Ho.
  - rewrite (bind_ok m f s a Ho). cbn. intros H.
    apply in_app_or in H. destruct H as [H|H]; [left; exact H|right; eauto].
  - rewrite (bind_throw m f s t Ho). cbn. auto.
Qed.

Lemma silent_not_In {S A} (X : Effect -> bool) (m : M S A) (s : S) (x : Effect) :
  silent X m -> In x (trace (m s)) -> X x = false.
Proof.
  intros Hm Hin. specialize (Hm s).
  rewrite forallb_forall in Hm. apply negb_true_iff. exact (Hm x Hin).
Qed.

Lemma handle_no_start_session (env : Env) (e : Event) :
  (forall pe, e <> VideoPlaying pe) -> silent isStartSession (handle env e).
Proof.
  intros He. destruct e; try (now elim (He playError)); mute_rules.
Qed.

Lemma commit_no_start_session (env : Env) : silent isStartSession (commit env).
Proof. mute_rules. Qed.

(** X14: a session is requested only once the media source plays.  In
    any state, an event that puts [start_session] on the wire is the
    video having started to play (or having failed to) while the start
    flow waits for it, with the link up, and the requested input mode
    is the one of that flow: camera for a camera start, file for an
    upload.  In particular a denied camera never starts a session. *)
Theorem start_session_only_when_playing
    (env : Env) (r : Runtime) (e : Event) (m : Slice.InputMode) :
  In (SocketEmit (start_session m)) (snd (step env r e)) ->
  (exists pe, e = VideoPlaying pe) /\
  flow r = Some (AwaitPlay m) /\
  WS.isConnected (ws (page r)) = true.
Proof.
  intros Hin. unfold step in Hin. cbn [snd] in Hin.
  apply in_trace_bind in Hin. destruct Hin as [Hin|[a Hin]].
  - rewrite try_catch_ret_trace in Hin.
    destruct e;
      try (apply (silent_not_In isStartSession) in Hin;
           [discriminate Hin
           |apply handle_no_start_session; intros pe; discriminate]).
    destruct r as [[st w ic ls fc fp lg iuv vr cir icr] mt cc lc f cp ts].
    destruct f as [[|mode|mode]|];
      try (cbn in Hin; now elim Hin).
    destruct w as [[[id [|]]|] fi v], mode, playError;
      cbn in Hin; destruct Hin as [Hin|[]]; try discriminate Hin;
      injection Hin as <-; (split; [eauto|split; reflexivity]).
  - exfalso.
    apply (silent_not_In isStartSession) in Hin; [discriminate Hin|].
    apply silent_bind; [apply silent_gets|].
    intros b. apply silent_when. apply commit_no_start_session.
Qed.

(** The run of the camera start: the request goes out when the video
    plays. *)
Lemma start_session_scenario :
  flow (fst (steps boot [ (env0, Mount); (env0, SocketConnect "sock1");
                          (env0, ClickStart); (env0, MediaGranted [7]) ])) =
    Some (AwaitPlay Slice.camera).
Proof.
  exact (proj1 (proj2 (start_session_only_when_playing env0
    (fst (steps boot [ (env0, Mount); (env0, SocketConnect "sock1");
                       (env0, ClickStart); (env0, MediaGranted [7]) ]))
    (VideoPlaying None) Slice.camera (or_introl eq_refl)))).
Defined.

(** X15: navigating away never stops a media track, whatever stream
    the page holds: the cleanup that runs was made by the first render,
    where there was none.  It leaves the service without socket and the
    page unmounted, and the store exactly as it was. *)
Theorem navigation_away_spec (env : Env) (r : Runtime) :
  forallb (fun e => negb (isTrackStop e)) (snd (step env r NavigateAway)) = true /\
  ws (page (fst (step env r NavigateAway))) = unlinked /\
  mounted (fst (step env r NavigateAway)) = false /\
  store (page (fst (step env r NavigateAway))) = store (page r).
Proof.
  destruct r as [[st w ic ls fc fp lg iuv vr cir icr] m cc lc f cp ts].
  destruct w as [[[id [|]]|] [i|] v], cir, vr, lc; repeat split.
Qed.

End PageFurther.

(* ===================================================================== *)
(** ** Properties of the calibration page *)
(* ===================================================================== *)

Section CalibrationProperties.
Import Calibration.

Variable number : Type.
Variables sub mul div : number -> number -> number.

Lemma numbered_nil {A} (order : A -> nat) : numbered order [].
Proof. reflexivity. Qed.

Lemma numbered_snoc {A} (order : A -> nat) (l : list A) (a : A) :
  numbered order l -> order a = length l + 1 -> numbered order (l ++ [a]).
Proof.
  unfold numbered. intros H Ha.
  rewrite map_app, length_app, H. cbn [map length].
  rewrite Ha, seq_app. cbn. rewrite Nat.add_comm. reflexivity.
Qed.

Lemma numbered_nth {A} (order : A -> nat) (l : list A) (i : nat) (a : A) :
  numbered order l -> nth_error l i = Some a -> order a = S i.
Proof.
  unfold numbered. intros H Hn.
  assert (Hm : nth_error (map order l) i = Some (order a))
    by (apply map_nth_error; exact Hn).
  rewrite H in Hm.
  assert (Hi : i < length l) by (apply nth_error_Some; congruence).
  rewrite nth_error_nth' with (d := 0) in Hm by (rewrite length_seq; exact Hi).
  rewrite seq_nth in Hm by exact Hi. injection Hm as <-. reflexivity.
Qed.

Lemma step_keeps_numbered (s : CalibrationState number) (ev : Event number) :
  numbered p_order (imagePoints s) /\ numbered c_order (mapCoordinates s) ->
  numbered p_order (imagePoints (step sub mul div s ev)) /\
  numbered c_order (mapCoordinates (step sub mul div s ev)).
Proof.
  intros [Hp Hc]. destruct ev as [[im|] e|lat lng| | |]; cbn.
  - split; [|exact Hc]. apply numbered_snoc; [exact Hp|reflexivity].
  - split; assumption.
  - unfold handleMapClick. destruct (selectingOrigin s); cbn.
    + split; assumption.
    + split; [exact Hp|]. apply numbered_snoc; [exact Hc|reflexivity].
  - split; [apply numbered_nil|exact Hc].
  - split; [exact Hp|apply numbered_nil].
  - split; assumption.
Qed.

Lemma fold_keeps_numbered (l : list (Event number)) (s : CalibrationState number) :
  numbered p_order (imagePoints s) /\ numbered c_order (mapCoordinates s) ->
  numbered p_order (imagePoints (fold_left (step sub mul div) l s)) /\
  numbered c_order (mapCoordinates (fold_left (step sub mul div) l s)).
Proof.
  revert s. induction l as [|ev l IH]; intros s H; [exact H|].
  cbn [fold_left]. apply IH. apply step_keeps_numbered. exact H.
Qed.

(** X16: whatever the operator did (clicks on the image and on the map,
    either Reset button, origin selection), the image points are
    numbered 1, 2, 3, ... in the order they are listed, and so are the
    map coordinates; and the request body lists them in that order: the
    point shown with number i+1 is entry i of [pixels], the coordinate
    shown with number i+1 is entry i of [coordinates]. *)
Theorem calibration_points_numbered (l : list (Event number))
    (sb : option Slice.SavedBackground) :
  let s := run sub mul div l in
  numbered p_order (imagePoints s) /\
  numbered c_order (mapCoordinates s) /\
  (forall i p, nth_error (imagePoints s) i = Some p ->
     p_order p = S i /\
     nth_error (pixels (calibratePayload sb s)) i = Some (p_x p, p_y p)) /\
  (forall i c, nth_error (mapCoordinates s) i = Some c ->
     c_order c = S i /\
     nth_error (coordinates (calibratePayload sb s)) i = Some (c_lat c, c_lng c)).
Proof.
  intros s.
  assert (H : numbered p_order (imagePoints s) /\
              numbered c_order (mapCoordinates s)).
  { apply fold_keeps_numbered. split; apply numbered_nil. }
  destruct H as [Hp Hc].
  split; [exact Hp|]. split; [exact Hc|]. split.
  - intros i p Hn. split; [exact (numbered_nth _ _ _ _ Hp Hn)|].
    cbn. apply (map_nth_error (fun q => (p_x q, p_y q))). exact Hn.
  - intros i c Hn. split; [exact (numbered_nth _ _ _ _ Hc Hn)|].
    cbn. apply (map_nth_error (fun q => (c_lat q, c_lng q))). exact Hn.
Qed.

Lemma step_keeps_origin (s : CalibrationState number) (ev : Event number) :
  originCoordinate s <> None ->
  originCoordinate (step sub mul div s ev) <> None.
Proof.
  intros H. destruct ev as [[im|] e|lat lng| | |]; cbn; try exact H.
  unfold handleMapClick. destruct (selectingOrigin s); cbn;
    [discriminate|exact H].
Qed.

(** X17: after Select Origin, the next click on the map is taken as the
    origin: it replaces an earlier origin, adds no coordinate and ends
    the selection.  An origin once selected is never removed by
    anything the operator can do on the page, the two Reset buttons
    included. *)
Theorem origin_selection (s : CalibrationState number) :
  (forall lat lng,
     let s' := handleMapClick lat lng (handleSelectOrigin s) in
     originCoordinate s' = Some (lat, lng) /\
     mapCoordinates s' = mapCoordinates s /\
     imagePoints s' = imagePoints s /\
     selectingOrigin s' = false) /\
  (forall l, originCoordinate s <> None ->
     originCoordinate (fold_left (step sub mul div) l s) <> None).
Proof.
  split.
  - intros lat lng. repeat split.
  - intros l. revert s. induction l as [|ev l IH]; intros s H; [exact H|].
    cbn [fold_left]. apply IH. apply step_keeps_origin. exact H.
Qed.

End CalibrationProperties.

(** Two image clicks, a reset of the image points, one more click: the
    point is numbered 1 again and is entry 0 of the request. *)
Lemma calibration_points_scenario :
  let im := Some (Calibration.mkImage Z 320 240 640 480)%Z in
  let click x y := Calibration.ImageClick Z im (Calibration.mkMouseEvent Z x y 0 0)%Z in
  let l := [click 10 10; click 20 20; Calibration.ResetImage Z; click 30 40]%Z in
  nth_error (Calibration.pixels
               (Calibration.calibratePayload None
                  (Calibration.run Z.sub Z.mul Z.div l))) 0 = Some (60, 80)%Z.
Proof.
  intros im click l.
  exact (proj2 (proj1 (proj2 (proj2
    (calibration_points_numbered Z Z.sub Z.mul Z.div l None)))
    0 (Calibration.mkPoint Z 60 80 1)%Z eq_refl)).
Defined.

(** An origin selected, then both lists reset. *)
Lemma origin_selection_scenario :
  let s := Calibration.handleMapClick 36%Z (-119)%Z
             (Calibration.handleSelectOrigin (Calibration.initialCalibration Z)) in
  Calibration.originCoordinate
    (fold_left (Calibration.step Z.sub Z.mul Z.div)
       [Calibration.ResetImage Z; Calibration.ResetMap Z] s) <> None.
Proof.
  intros s.
  exact (proj2 (origin_selection Z Z.sub Z.mul Z.div s)
           [Calibration.ResetImage Z; Calibration.ResetMap Z]
           ltac:(discriminate)).
Defined.
